(** * Precious-metals price pipeline (src/app.py): a shallow embedding

    The pipeline of [process_precious_metals_data] and its helpers
    [gold_table], [silver_table], [lookup_multiplier] and
    [update_variant_price_fixed], over these models of the pandas data:

    - a Python [str] is the list of its Unicode code points;
    - a cell of a table is a [value]: missing (NaN), a string, a number or a
      boolean; numbers are exact rationals, so the statements about prices
      are statements about the arithmetic the code asks for, not about the
      binary rounding of the machine floats that carry it;
    - the product export is a [frame] of named columns, each with its dtype
      flag, as the sanitizer tests [dtype == 'object'];
    - the reference table is a list of rows (records), since every step on
      it is row-wise (sort, filter, clean, drop duplicates, apply);
    - the dictionary [price_lookup] is a [gmap];
    - a timestamp is its number of nanoseconds on the local time line, and
      the clock read by [pd.Timestamp.today()] is an explicit argument.

    Library functions whose result depends on text formats (the text of a
    number, the parsing of numbers and of dates) are parameters of the
    development. *)

From Stdlib Require Import ZArith QArith Qround Qabs Lia Lqa String Ascii DecimalString.
From stdpp Require Import base option list sorting gmap.


(** ** Python strings *)

Abbreviation pystr := (list N).

Module PyStr.

(** [s.replace(old, new)]: leftmost, non-overlapping occurrences.  [skip]
    counts the characters of a matched occurrence still to be passed. *)
Fixpoint replace_from (old new : pystr) (skip : nat) (s : pystr) : pystr :=
  match s with
  | [] => []
  | c :: s' =>
      match skip with
      | S k => replace_from old new k s'
      | O =>
          if bool_decide (old `prefix_of` s)
          then new ++ replace_from old new (length old - 1) s'
          else c :: replace_from old new 0 s'
      end
  end.

Definition replace (old new s : pystr) : pystr :=
  match old with
  | [] => new ++ flat_map (λ c, c :: new) s
  | _ => replace_from old new 0 s
  end.

(** [str.isspace] on one character, as [str.strip()] uses it. *)
Definition is_space (c : N) : bool :=
  ((9 <=? c) && (c <=? 13) || (28 <=? c) && (c <=? 32)
   || (c =? 133) || (c =? 160) || (c =? 5760)
   || (8192 <=? c) && (c <=? 8202)
   || (c =? 8232) || (c =? 8233) || (c =? 8239) || (c =? 8287)
   || (c =? 12288))%N.

Fixpoint lstrip (s : pystr) : pystr :=
  match s with
  | [] => []
  | c :: s' => if is_space c then lstrip s' else s
  end.

Definition strip (s : pystr) : pystr := reverse (lstrip (reverse (lstrip s))).


(** An ASCII literal of the source as a Python string. *)
Definition py (s : string) : pystr := N_of_ascii <$> list_ascii_of_string s.

End PyStr.

(** ** Cells *)

Inductive value :=
| VNa                 (* NaN / pd.NA: [pd.isna] holds *)
| VStr (s : pystr)
| VNum (q : Q)
| VBool (b : bool).

Definition isna (v : value) : bool :=
  match v with VNa => true | _ => false end.

Definition notna (v : value) : bool := negb (isna v).

(** What the pandas and Python runtime contribute and the source does not
    fix: the text [str] gives for a number, and the parsers behind
    [pd.to_numeric] (on a string) and [pd.to_datetime] (on a cell), both
    called with [errors="coerce"], so that a failure is a missing value. *)
Class Runtime := {
  str_num : Q → pystr;
  num_of_str : pystr → option Q;
  datetime_of : value → option Z
}.

#[global] Instance Q_eq_dec : EqDecision Q.
Proof. solve_decision. Defined.

#[global] Instance value_eq_dec : EqDecision value.
Proof. solve_decision. Defined.

(** ** The output sanitizer (app.py, line 215) *)

Module Sanitizer.
Import PyStr.

(** U+201A, U+0192, U+00C3, U+00C2 and the pair U+00C3 U+201A. *)
Definition low_quote : N := 8218.
Definition florin : N := 402.
Definition a_tilde : N := 195.
Definition a_circ : N := 194.

Definition mojibake : list pystr :=
  [[low_quote]; [florin]; [a_tilde]; [a_circ]; [a_tilde; low_quote]].

(** [s.replace('‚','').replace('ƒ','').replace('Ã','').replace('Â','')
      .replace('Ã‚','')] *)
Definition strip_mojibake (s : pystr) : pystr :=
  replace [a_tilde; low_quote] []
    (replace [a_circ] []
       (replace [a_tilde] []
          (replace [florin] []
             (replace [low_quote] [] s)))).

Definition denied (c : N) : Prop :=
  c ∈ [low_quote; florin; a_tilde; a_circ].

#[global] Instance denied_dec c : Decision (denied c).
Proof. unfold denied. apply _. Defined.

End Sanitizer.

(** ** Series operations *)

Module Series.
Import PyStr.

Section WithRuntime.
Context `{Runtime}.

(** [str(x)] *)
Definition py_str (v : value) : pystr :=
  match v with
  | VNa => py "nan"
  | VStr s => s
  | VNum q => str_num q
  | VBool true => py "True"
  | VBool false => py "False"
  end.

Definition fillna (d v : value) : value := if isna v then d else v.

(** [.astype(str)] on one cell *)
Definition astype_str (v : value) : value := VStr (py_str v).

(** A method of the [.str] accessor on one cell: a cell that is not a
    string gives NaN. *)
Definition str_map (f : pystr → pystr) (v : value) : value :=
  match v with VStr s => VStr (f s) | _ => VNa end.

(** [pd.to_numeric(..., errors="coerce")] on one cell *)
Definition to_numeric (v : value) : value :=
  match v with
  | VNa => VNa
  | VStr s => match num_of_str s with Some q => VNum q | None => VNa end
  | VNum q => VNum q
  | VBool b => VNum (if b then 1%Q else 0%Q)
  end.

(** [numpy.rint]: the nearest integer, a tie going to the even one. *)
Definition rint (q : Q) : Z :=
  let f := Qfloor q in
  match ((q - inject_Z f) ?= (1 # 2))%Q with
  | Lt => f
  | Gt => (f + 1)%Z
  | Eq => if Z.even f then f else (f + 1)%Z
  end.

(** [.round(2)] on a number: scale by 100, [rint], scale back. *)
Definition round2 (q : Q) : Q := (inject_Z (rint (q * 100)) / 100)%Q.

Definition round_value (v : value) : value :=
  match v with VNum q => VNum (round2 q) | _ => v end.

(** The product of two cells of numeric columns; NaN absorbs. *)
Definition mul_value (a b : value) : value :=
  match a, b with
  | VNum x, VNum y => VNum (x * y)%Q
  | _, _ => VNa
  end.

End WithRuntime.

(** [sort_values]: a stable insertion sort; [le x y] says that [x] may
    stand before [y]. *)
Fixpoint insert_by {A} (le : A → A → bool) (x : A) (l : list A) : list A :=
  match l with
  | [] => [x]
  | y :: l' => if le x y then x :: l else y :: insert_by le x l'
  end.

Definition sort_by {A} (le : A → A → bool) (l : list A) : list A :=
  foldr (insert_by le) [] l.

End Series.

(** ** Data frames by column: the product export *)

Record column := Column { dtype_object : bool; cells : list value }.

Abbreviation frame := (list (pystr * column)).

Module Frame.

Fixpoint get_col (name : pystr) (f : frame) : option column :=
  match f with
  | [] => None
  | (n, c) :: f' => if decide (n = name) then Some c else get_col name f'
  end.

(** [df[name] = c]: in place when the column exists, appended otherwise. *)
Fixpoint set_col (name : pystr) (c : column) (f : frame) : frame :=
  match f with
  | [] => [(name, c)]
  | (n, c0) :: f' =>
      if decide (n = name) then (n, c) :: f' else (n, c0) :: set_col name c f'
  end.

Definition nrows (f : frame) : nat :=
  match f with [] => 0 | (_, c) :: _ => length (cells c) end.

Definition names (f : frame) : list pystr := f.*1.

(** The invariant of a DataFrame: every column has one cell per row. *)
Definition wf (f : frame) : Prop :=
  Forall (λ p, length (cells p.2) = nrows f) f.

Definition map_cells (g : value → value) (c : column) : column :=
  Column (dtype_object c) (g <$> cells c).

(** [df.loc[idx, name] = v]; a column that does not exist is created,
    NaN everywhere else. *)
Definition loc_set (idx : nat) (name : pystr) (v : value) (f : frame) : frame :=
  match get_col name f with
  | Some c => set_col name (Column (dtype_object c) (<[idx := v]> (cells c))) f
  | None => set_col name (Column false (<[idx := v]> (replicate (nrows f) VNa))) f
  end.

End Frame.

(** ** Multiplier tables (app.py, lines 39-51) *)

#[global] Instance Qlt_dec (x y : Q) : Decision (x < y)%Q :=
  match Qlt_le_dec x y with
  | left h => left h
  | right h => right (Qle_not_lt _ _ h)
  end.

#[global] Instance Q_countable : Countable Q.
Proof.
  refine (inj_countable' (λ q, (Qnum q, Qden q)) (λ p, Qmake p.1 p.2) _).
  by intros [].
Defined.

#[global] Instance value_countable : Countable value.
Proof.
  refine (inj_countable'
    (λ v, match v with
          | VNa => inl ()
          | VStr s => inr (inl s)
          | VNum q => inr (inr (inl q))
          | VBool b => inr (inr (inr b))
          end)
    (λ x, match x with
          | inl _ => VNa
          | inr (inl s) => VStr s
          | inr (inr (inl q)) => VNum q
          | inr (inr (inr b)) => VBool b
          end) _).
  by intros [].
Defined.

(** A row of a factor table: the columns "Gold Market" and "Multiplier". *)
Record factor_row := FactorRow { breakpoint : Q; factor : Q }.

Module Tables.

Definition gold_table (gold_market : Q) : list factor_row :=
  let multipliers := [2.1; 1.7; 1.5; 1.35; 1.25; 1.175; 1.1; 1.0683; 1]%Q in
  let factors := [2; 1.8; 1.6; 1.4; 1.3; 1.2; 1.1; 1.05; 1]%Q in
  let results := (λ m, gold_market / m)%Q <$> multipliers in
  zip_with FactorRow results factors.

Definition silver_table (silver_market : Q) : list factor_row :=
  let multipliers_s :=
    [2.2; 1.5573; 1.4615; 1.3571; 1.3073; 1.2025; 1.1176; 1.0555; 1]%Q in
  let factors_s := [2; 1.6; 1.5; 1.4; 1.3; 1.2; 1.1; 1.05; 1]%Q in
  let results_s := (λ m, silver_market / m)%Q <$> multipliers_s in
  zip_with FactorRow results_s factors_s.

(** [factor.sort_values('Gold Market').reset_index(drop=True)] *)
Definition sort_values (t : list factor_row) : list factor_row :=
  Series.sort_by (λ a b, Qle_bool (breakpoint a) (breakpoint b)) t.

End Tables.

(** ** The reference table by row *)

Record ref_row := RefRow {
  Stock_ID : value;
  Metal : value;
  Price_Per_Unit : value;
  Gold_Market : value;
  Date_Created : value;
  Date_Last_Price_Change : value;
  Last_Stocked : value;
  Max_Date : option Z;
  Multiplier : value;
  New_Price : value
}.

Definition set_Stock_ID (v : value) (r : ref_row) : ref_row :=
  RefRow v (Metal r) (Price_Per_Unit r) (Gold_Market r) (Date_Created r)
    (Date_Last_Price_Change r) (Last_Stocked r) (Max_Date r) (Multiplier r)
    (New_Price r).
Definition set_Metal (v : value) (r : ref_row) : ref_row :=
  RefRow (Stock_ID r) v (Price_Per_Unit r) (Gold_Market r) (Date_Created r)
    (Date_Last_Price_Change r) (Last_Stocked r) (Max_Date r) (Multiplier r)
    (New_Price r).
Definition set_Price_Per_Unit (v : value) (r : ref_row) : ref_row :=
  RefRow (Stock_ID r) (Metal r) v (Gold_Market r) (Date_Created r)
    (Date_Last_Price_Change r) (Last_Stocked r) (Max_Date r) (Multiplier r)
    (New_Price r).
Definition set_Gold_Market (v : value) (r : ref_row) : ref_row :=
  RefRow (Stock_ID r) (Metal r) (Price_Per_Unit r) v (Date_Created r)
    (Date_Last_Price_Change r) (Last_Stocked r) (Max_Date r) (Multiplier r)
    (New_Price r).
Definition set_Max_Date (d : option Z) (r : ref_row) : ref_row :=
  RefRow (Stock_ID r) (Metal r) (Price_Per_Unit r) (Gold_Market r)
    (Date_Created r) (Date_Last_Price_Change r) (Last_Stocked r) d
    (Multiplier r) (New_Price r).
Definition set_Multiplier (v : value) (r : ref_row) : ref_row :=
  RefRow (Stock_ID r) (Metal r) (Price_Per_Unit r) (Gold_Market r)
    (Date_Created r) (Date_Last_Price_Change r) (Last_Stocked r) (Max_Date r)
    v (New_Price r).
Definition set_New_Price (v : value) (r : ref_row) : ref_row :=
  RefRow (Stock_ID r) (Metal r) (Price_Per_Unit r) (Gold_Market r)
    (Date_Created r) (Date_Last_Price_Change r) (Last_Stocked r) (Max_Date r)
    (Multiplier r) v.

(** ** The multiplier resolver (app.py, lines 53-80) *)

Module Resolver.
Import PyStr.

(** A cell used as a number in a comparison with a float column; a string
    there raises. *)
Definition as_number (v : value) : option Q :=
  match v with
  | VNum q => Some q
  | VBool b => Some (if b then 1%Q else 0%Q)
  | _ => None
  end.

(** [None] is the exception of [iloc[-1]] on an empty table, or of the
    comparison of the column with a string. *)
Definition find_multiplier_above (val : value) (factor_df : list factor_row)
  : option value :=
  if isna val then Some VNa
  else
    v ← as_number val;
    let valid_matches := filter (λ r, (v < breakpoint r)%Q) factor_df in
    match valid_matches with
    | [] => (λ r, VNum (factor r)) <$> last factor_df
    | r :: _ => Some (VNum (factor r))
    end.

Definition lookup_multiplier_by_metal
    (gold_factor_sorted silver_factor_sorted : list factor_row)
    (row : ref_row) : option value :=
  let market_value := Gold_Market row in
  let metal_type := Metal row in
  if isna market_value || isna metal_type then Some VNa
  else if decide (metal_type = VStr (py "S/S"))
  then find_multiplier_above market_value silver_factor_sorted
  else find_multiplier_above market_value gold_factor_sorted.

Definition lookup_multiplier (reference : list ref_row)
    (gold_factor silver_factor : list factor_row) : option (list ref_row) :=
  let gold_factor_sorted := Tables.sort_values gold_factor in
  let silver_factor_sorted := Tables.sort_values silver_factor in
  mapM (λ row,
          m ← lookup_multiplier_by_metal gold_factor_sorted
                silver_factor_sorted row;
          Some (set_Multiplier m row))
       reference.

End Resolver.

(** ** Reference normalization (app.py, lines 139-179) *)

Module Reference.
Import PyStr Series.

(** One day in nanoseconds, and [Timestamp.normalize()]: midnight of the
    same day. *)
Definition day_ns : Z := 86400 * 10 ^ 9.

Definition timestamp_normalize (t : Z) : Z := (t - t `mod` day_ns)%Z.

(** [max] of two timestamps, NaT skipped. *)
Definition max_skipna (a b : option Z) : option Z :=
  match a, b with
  | Some x, Some y => Some (Z.max x y)
  | Some x, None => Some x
  | None, _ => b
  end.

(** The order of [sort_values(by="Max Date", ascending=False)]: later
    dates first, NaT last. *)
Definition max_date_before (a b : ref_row) : bool :=
  match Max_Date a, Max_Date b with
  | Some x, Some y => (y <=? x)%Z
  | Some _, None => true
  | None, Some _ => false
  | None, None => true
  end.

(** [reference["Max Date"] <= today] on one row; NaT compares false. *)
Definition not_after (today : Z) (r : ref_row) : bool :=
  match Max_Date r with
  | Some d => (d <=? today)%Z
  | None => false
  end.

(** [drop_duplicates(subset=["Stock ID"])], first occurrence kept;
    [seen] holds the keys met so far. *)
Fixpoint drop_duplicates_from (seen : list value) (rows : list ref_row)
  : list ref_row :=
  match rows with
  | [] => []
  | r :: rows' =>
      if decide (Stock_ID r ∈ seen) then drop_duplicates_from seen rows'
      else r :: drop_duplicates_from (Stock_ID r :: seen) rows'
  end.

Definition drop_duplicates (rows : list ref_row) : list ref_row :=
  drop_duplicates_from [] rows.

Section WithRuntime.
Context `{Runtime}.

(** Lines 139-145 on one row. *)
Definition with_max_date (r : ref_row) : ref_row :=
  set_Max_Date
    (max_skipna
       (max_skipna (datetime_of (Date_Created r))
                   (datetime_of (Date_Last_Price_Change r)))
       (datetime_of (Last_Stocked r)))
    r.

(** Lines 163-165 on one row. *)
Definition clean_stock_id (v : value) : value :=
  str_map (replace (py " ") []) (astype_str (fillna (VStr []) v)).

Definition clean_metal (v : value) : value :=
  str_map (replace (py "SS") (py "S/S"))
    (str_map (replace (py " ") []) (astype_str (fillna (VStr []) v))).

(** Lines 170-174 on one cell. *)
Definition clean_gold_market (v : value) : value :=
  to_numeric
    (str_map (replace (py " ") [])
       (str_map (replace (py "-") [])
          (str_map (replace (py ",") [])
             (astype_str (fillna (VStr []) v))))).

(** Lines 178-179 on one cell. *)
Definition clean_price_per_unit (v : value) : value :=
  fillna (VNum 0) (to_numeric v).

(** Lines 139-147: the rows with their Max Date, most recent first. *)
Definition dated_reference (reference : list ref_row) : list ref_row :=
  let reference := with_max_date <$> reference in
  sort_by max_date_before reference.

(** Lines 159-160; [now] is what [pd.Timestamp.today()] returns. *)
Definition effective_reference (now : Z) (reference : list ref_row)
  : list ref_row :=
  let today := timestamp_normalize now in
  filter (λ r, not_after today r = true) (dated_reference reference).

(** Lines 139-179. *)
Definition normalize_reference (now : Z) (reference : list ref_row)
  : list ref_row :=
  let reference := effective_reference now reference in
  let reference :=
    (λ r, set_Stock_ID (clean_stock_id (Stock_ID r)) r) <$> reference in
  let reference :=
    (λ r, set_Metal (clean_metal (Metal r)) r) <$> reference in
  let reference := drop_duplicates reference in
  let reference :=
    (λ r, set_Gold_Market (clean_gold_market (Gold_Market r)) r)
      <$> reference in
  (λ r, set_Price_Per_Unit (clean_price_per_unit (Price_Per_Unit r)) r)
    <$> reference.

(** Lines 189-191 on one row. *)
Definition price_row (r : ref_row) : ref_row :=
  let r := set_Multiplier (fillna (VNum 1) (to_numeric (Multiplier r))) r in
  let r := set_New_Price (mul_value (Price_Per_Unit r) (Multiplier r)) r in
  set_New_Price (round_value (New_Price r)) r.

(** Lines 139-191: the reference table that reaches the propagator. *)
Definition priced_reference (now : Z) (reference : list ref_row)
    (gold_price silver_price : Q) : option (list ref_row) :=
  let reference := normalize_reference now reference in
  let gold_factor := Tables.gold_table gold_price in
  let silver_factor := Tables.silver_table silver_price in
  reference ← Resolver.lookup_multiplier reference gold_factor silver_factor;
  Some (price_row <$> (reference : list ref_row)).

End WithRuntime.

End Reference.

(** ** The SKU propagator (app.py, lines 82-126) *)

Module Propagator.
Import PyStr Series Frame.

Definition variant_sku : pystr := py "Variant SKU".
Definition variant_price : pystr := py "Variant Price".

(** The three counters of the loop. *)
Record counters := Counters {
  successful_updates : nat;
  skipped_blank_sku : nat;
  skipped_no_match : nat
}.

Section WithRuntime.
Context `{Runtime}.

(** Lines 87 and 92 (and 89, 93) on one cell:
    [.astype(str).str.strip()], then 'nan' becomes ''. *)
Definition clean_key (v : value) : value :=
  let s := str_map strip (astype_str v) in
  if decide (s = VStr (py "nan")) then VStr [] else s.

(** Lines 96-103. *)
Definition build_price_lookup (ref_clean : list ref_row) : gmap value value :=
  foldl
    (λ price_lookup row,
       let stock_id := Stock_ID row in
       let new_price := New_Price row in
       if bool_decide (stock_id ≠ VStr []) && notna stock_id
          && notna new_price && bool_decide (py_str stock_id ≠ py "nan")
       then <[stock_id := new_price]> price_lookup
       else price_lookup)
    ∅ ref_clean.

(** Lines 111-124: the rows from [idx] on, [skus] being the cells of
    "Variant SKU" from that row on. *)
Fixpoint propagate (price_lookup : gmap value value) (skus : list value)
    (idx : nat) (result : frame) (n : counters) : frame * counters :=
  match skus with
  | [] => (result, n)
  | variant_sku :: skus' =>
      if bool_decide (variant_sku = VStr []) || isna variant_sku then
        propagate price_lookup skus' (S idx) result
          (Counters (successful_updates n) (S (skipped_blank_sku n))
             (skipped_no_match n))
      else
        match price_lookup !! variant_sku with
        | Some new_price =>
            if notna new_price then
              propagate price_lookup skus' (S idx)
                (loc_set idx variant_price new_price result)
                (Counters (S (successful_updates n)) (skipped_blank_sku n)
                   (skipped_no_match n))
            else propagate price_lookup skus' (S idx) result n
        | None =>
            propagate price_lookup skus' (S idx) result
              (Counters (successful_updates n) (skipped_blank_sku n)
                 (S (skipped_no_match n)))
        end
  end.

(** [None] is the KeyError of a table without "Variant SKU". *)
Definition update_variant_price_fixed (upload : frame)
    (reference : list ref_row) : option (frame * counters) :=
  sku ← get_col variant_sku upload;
  let sku := Column true (clean_key <$> cells sku) in
  let result := set_col variant_sku sku upload in
  let ref_clean :=
    (λ r, set_Stock_ID (clean_key (Stock_ID r)) r) <$> reference in
  let price_lookup := build_price_lookup ref_clean in
  Some (propagate price_lookup (cells sku) 0 result (Counters 0 0 0)).

End WithRuntime.

End Propagator.

(** ** The pipeline (app.py, lines 128-239) *)

Record stats := Stats {
  stat_successful_updates : nat;
  stat_skipped_blank_sku : nat;
  stat_skipped_no_match : nat;
  total_rows : nat;
  reference_rows : nat
}.

Module Pipeline.
Import PyStr Series Frame Sanitizer.

Definition body_html : pystr := py "Body (HTML)".

Section WithRuntime.
Context `{Runtime}.

(** Line 215: the lambda applied to the cells of an object column. *)
Definition sanitize_cell (x : value) : value :=
  if notna x then VStr (strip_mojibake (py_str x)) else x.

(** Lines 212-216. *)
Definition sanitize_columns (f : frame) : frame :=
  (λ p, if dtype_object p.2 then (p.1, map_cells sanitize_cell p.2) else p)
    <$> f.

(** Lines 219-224; the [.str] accessor raises on a column that is not of
    object dtype. *)
Definition clean_body_html (f : frame) : option frame :=
  match get_col body_html f with
  | None => Some f
  | Some c =>
      if dtype_object c then
        Some (foldl
                (λ f p,
                   match get_col body_html f with
                   | Some c =>
                       set_col body_html
                         (map_cells (str_map (replace p [])) c) f
                   | None => f
                   end)
                f mojibake)
      else None
  end.

(** Lines 194-201. *)
Definition ensure_columns (upload : frame) : frame :=
  let upload :=
    match get_col Propagator.variant_price upload with
    | None =>
        set_col Propagator.variant_price
          (Column false (replicate (nrows upload) (VNum 0))) upload
    | Some c =>
        set_col Propagator.variant_price
          (Column false (to_numeric <$> cells c)) upload
    end in
  match get_col Propagator.variant_sku upload with
  | None =>
      set_col Propagator.variant_sku
        (Column true (replicate (nrows upload) (VStr []))) upload
  | Some _ => upload
  end.

(** Lines 207-208. *)
Definition round_variant_price (f : frame) : option frame :=
  c ← get_col Propagator.variant_price f;
  Some (set_col Propagator.variant_price
          (Column false (round_value <$> (to_numeric <$> cells c))) f).

(** Lines 133-208: the reference table with its new prices, and the
    product table with its prices propagated and rounded, before the
    sanitizer; [now] is the clock. *)
Definition priced_upload (now : Z) (reference : list ref_row)
    (upload : frame) (gold_price silver_price : Q)
  : option (list ref_row * frame * Propagator.counters) :=
  reference ←
    Reference.priced_reference now reference gold_price silver_price;
  let upload := ensure_columns upload in
  '(upload_updated, n) ←
    Propagator.update_variant_price_fixed upload reference;
  upload_updated ← round_variant_price upload_updated;
  Some (reference, upload_updated, n).

(** [process_precious_metals_data], after the two [read_csv].  [None] is
    the [except] branch. *)
Definition process_precious_metals_data (now : Z)
    (reference : list ref_row) (upload : frame)
    (gold_price silver_price : Q) : option (frame * stats) :=
  '(reference, upload_updated, n) ←
    priced_upload now reference upload gold_price silver_price;
  let upload_updated := sanitize_columns upload_updated in
  upload_updated ← clean_body_html upload_updated;
  Some (upload_updated,
        Stats (Propagator.successful_updates n)
          (Propagator.skipped_blank_sku n)
          (Propagator.skipped_no_match n)
          (nrows upload_updated) (length reference)).

End WithRuntime.

End Pipeline.

(** ** A runtime for the examples

    Numbers are written and read as unsigned decimal integers, and a date
    cell is a number of nanoseconds. *)

Module Sample.
Import PyStr.

Definition digit_of (c : N) : option Z :=
  if ((48 <=? c) && (c <=? 57))%N then Some (Z.of_N c - 48)%Z else None.

Fixpoint parse_digits (acc : Z) (s : pystr) : option Z :=
  match s with
  | [] => Some acc
  | c :: s' => d ← digit_of c; parse_digits (10 * acc + d)%Z s'
  end.

Definition parse_number (s : pystr) : option Q :=
  match s with
  | [] => None
  | _ => inject_Z <$> parse_digits 0 s
  end.

Definition show_number (q : Q) : pystr :=
  py (DecimalString.NilZero.string_of_uint (N.to_uint (Z.to_N (Qfloor q)))).

Definition parse_datetime (v : value) : option Z :=
  match v with
  | VNum q => Some (Qfloor q)
  | _ => None
  end.

#[global] Instance runtime : Runtime :=
  {| str_num := show_number;
     num_of_str := parse_number;
     datetime_of := parse_datetime |}.

(** A reference row as [read_csv] gives it: the derived columns are not
    there yet. *)
Definition raw_row (stock_id metal price gold_market created changed stocked
    : value) : ref_row :=
  RefRow stock_id metal price gold_market created changed stocked None VNa VNa.

End Sample.

(** ** The vocabulary of the statements *)

Module Spec.
Import PyStr Series Frame.

(** A product row whose SKU counts as blank in the propagator. *)
Definition is_blank (v : value) : bool := bool_decide (v = VStr []) || isna v.

(** The dictionary the propagator builds from the reference table. *)
Definition price_mapping `{Runtime} (reference : list ref_row)
  : gmap value value :=
  Propagator.build_price_lookup
    ((λ r, set_Stock_ID (Propagator.clean_key (Stock_ID r)) r) <$> reference).

(** A cell that the sanitizer may leave behind: missing, or a string
    without any of the four characters. *)
Definition clean_value (v : value) : Prop :=
  match v with
  | VNa => True
  | VStr s => Forall (λ c, ¬ Sanitizer.denied c) s
  | _ => False
  end.

(** Every cell of every column of object dtype is clean. *)
Definition sanitized (f : frame) : Prop :=
  Forall (λ p, dtype_object p.2 = true → Forall clean_value (cells p.2)) f.


Definition increasing (t : list factor_row) : Prop :=
  StronglySorted (λ a b, (breakpoint a < breakpoint b)%Q) t.

(** [r] is the first row of [t] whose breakpoint is strictly greater than
    [v]. *)
Definition first_above (v : Q) (t : list factor_row) (r : factor_row) : Prop :=
  ∃ pre post, t = pre ++ (r :: post)
              ∧ Forall (λ x, (breakpoint x <= v)%Q) pre
              ∧ (v < breakpoint r)%Q.

(** No breakpoint of [t] is strictly greater than [v]. *)
Definition none_above (v : Q) (t : list factor_row) : Prop :=
  Forall (λ x, (breakpoint x <= v)%Q) t.

(** The cleaning of one reference row: lines 163-165, then lines
    170-179. *)
Definition clean_keys `{Runtime} (r : ref_row) : ref_row :=
  set_Metal (Reference.clean_metal (Metal r))
    (set_Stock_ID (Reference.clean_stock_id (Stock_ID r)) r).

Definition clean_numbers `{Runtime} (r : ref_row) : ref_row :=
  set_Price_Per_Unit (Reference.clean_price_per_unit (Price_Per_Unit r))
    (set_Gold_Market (Reference.clean_gold_market (Gold_Market r)) r).

Definition normalize_row `{Runtime} (r : ref_row) : ref_row :=
  clean_numbers (clean_keys (Reference.with_max_date r)).

(** A Max Date that is there and not after [t]. *)
Definition on_or_before (d : option Z) (t : Z) : Prop :=
  ∃ x, d = Some x ∧ (x ≤ t)%Z.

(** The multiplier that enters the price: the number the resolver gave,
    and 1 when it gave none or one that is not a number. *)
Definition multiplier_or_one `{Runtime} (m : value) : Q :=
  match to_numeric m with VNum q => q | _ => 1%Q end.




End Spec.

(** ** Examples of tables *)

Module Examples.
Import PyStr Frame Propagator Sample.

Definition handle : pystr := py "Handle".

Definition published : pystr := py "Published".

(** Three product rows: a SKU with blanks around it, a missing SKU and a
    SKU that no reference row has; the second handle holds U+00C3 U+201A
    before an A, and "Published" is a column of booleans with a hole, so
    of object dtype. *)
Definition upload : frame :=
  [(handle, Column true [VStr (py "ring"); VStr [195; 8218; 65]%N; VNa]);
   (published, Column true [VBool true; VNa; VBool false]);
   (variant_sku, Column true [VStr (py " ABC1 "); VNa; VStr (py "ZZZ")]);
   (variant_price, Column false [VNum 1; VNum 2; VNum 3.456])].

Definition sku_column : column :=
  Column true [VStr (py " ABC1 "); VNa; VStr (py "ZZZ")].

(** A priced reference row, as the propagator receives it. *)
Definition priced (stock_id : pystr) (price : Q) : ref_row :=
  RefRow (VStr stock_id) (VStr (py "S/S")) (VNum price) (VNum 25)
    VNa VNa VNa (Some 0%Z) (VNum 1) (VNum price).

Definition reference : list ref_row := [priced (py "ABC1") 10].

(** Midnight of day [n], as a date cell and as a timestamp. *)
Definition midnight (n : Z) : Z := (n * Reference.day_ns)%Z.
Definition date (n : Z) : value := VNum (inject_Z (midnight n)).

(** The reference file: silver item ABC1, created on day 3, and a gold
    item changed on day 20. *)
Definition raw_reference : list ref_row :=
  [raw_row (VStr (py "ABC1")) (VStr (py "SS")) (VNum 10) (VStr (py "25"))
     (date 3) VNa VNa;
   raw_row (VStr (py "Z Z Z")) (VStr (py "14K")) (VStr (py "7"))
     (VStr (py "1,000")) (date 3) (date 20) VNa].


End Examples.

(** ** Vocabulary of the further properties *)

Module Behaviour.
Import PyStr Series Frame.

(** A multiplier as the resolver may give it: none, or a number from 1
    to 2. *)
Definition in_range (m : value) : Prop :=
  m = VNa ∨ ∃ f, m = VNum f ∧ (1 <= f)%Q ∧ (f <= 2)%Q.

(** A factor table whose breakpoints go up while its factors go down. *)
Definition tiered (t : list factor_row) : Prop :=
  StronglySorted
    (λ a b, (breakpoint a < breakpoint b)%Q ∧ (factor b <= factor a)%Q) t.

(** The metal test of the resolver, the spot price that belongs to a row,
    and the greatest divisor of its table. *)
Definition is_silver (row : ref_row) : bool :=
  bool_decide (Metal row = VStr (py "S/S")).



(** The text of a cell after [fillna("").astype(str)], and a text without
    its spaces. *)
Definition text_of `{Runtime} (v : value) : pystr :=
  py_str (fillna (VStr []) v).

Definition without_spaces (s : pystr) : pystr := filter (λ c, c ≠ 32%N) s.

(** The three parsed timestamps of a reference row. *)
Definition timestamps `{Runtime} (r : ref_row) : list (option Z) :=
  [datetime_of (Date_Created r); datetime_of (Date_Last_Price_Change r);
   datetime_of (Last_Stocked r)].

(** The types of the cells of a row of the normalized reference table. *)
Definition typed_row (today : Z) (r : ref_row) : Prop :=
  (∃ s, Stock_ID r = VStr s ∧ 32%N ∉ s)
  ∧ (∃ s, Metal r = VStr s ∧ 32%N ∉ s)
  ∧ (∃ q, Price_Per_Unit r = VNum q)
  ∧ (Gold_Market r = VNa ∨ ∃ q, Gold_Market r = VNum q)
  ∧ ∃ d, Max_Date r = Some d ∧ (d ≤ today)%Z.

(** A reference row that gets an entry in the price mapping: its cleaned
    Stock ID is not empty and its New Price is there. *)
Definition usable_entry `{Runtime} (r : ref_row) : bool :=
  bool_decide (Propagator.clean_key (Stock_ID r) ≠ VStr [])
  && notna (New_Price r).

(** The price of a product row after the propagator: the mapped price
    when the cleaned SKU is not blank and has one, the old price
    otherwise. *)
Definition propagated (price_lookup : gmap value value) (sku old : value)
  : value :=
  if Spec.is_blank sku then old
  else match price_lookup !! sku with
       | Some new_price => if notna new_price then new_price else old
       | None => old
       end.

(** The cells of "Variant SKU" and of "Variant Price" that the pipeline
    starts from: those of the product table, or the defaults of a column
    that is not there; and the columns of its result. *)
Definition sku_cells (upload : frame) : list value :=
  match get_col Propagator.variant_sku upload with
  | Some c => cells c
  | None => replicate (nrows upload) (VStr [])
  end.

Definition price_cells `{Runtime} (upload : frame) : list value :=
  match get_col Propagator.variant_price upload with
  | Some c => to_numeric <$> cells c
  | None => replicate (nrows upload) (VNum 0)
  end.

Definition output_names (upload : frame) : list pystr :=
  names upload
  ++ match get_col Propagator.variant_price upload with
     | Some _ => []
     | None => [Propagator.variant_price]
     end
  ++ match get_col Propagator.variant_sku upload with
     | Some _ => []
     | None => [Propagator.variant_sku]
     end.

(** A column after the sanitizer. *)
Definition sanitized_column `{Runtime} (c : column) : column :=
  if dtype_object c then map_cells Pipeline.sanitize_cell c else c.


End Behaviour.

(** ** Further examples of tables *)

Module Cases.
Import PyStr Frame Propagator Sample.


(** A product export without the column "Variant SKU". *)
Definition no_sku : frame :=
  [(Examples.handle, Column true [VStr (py "ring"); VStr (py "chain")]);
   (variant_price, Column false [VNum 1; VNum 2.345])].

(** A reference row whose Price Per Unit is the text 'n/a' and whose Gold
    Market is empty. *)
Definition unpriced_row : ref_row :=
  raw_row (VStr (py "Q1")) (VStr (py "14K")) (VStr (py "n/a")) VNa
    (Examples.date 3) VNa VNa.

End Cases.

(** * Properties *)

(** ** Strings and the sanitizer *)

Section StringFacts.
Import PyStr Sanitizer.

Lemma replace_from_single (c : N) (s : pystr) :
  replace_from [c] [] 0 s = filter (λ x, x ≠ c) s.
Proof.
  induction s as [|x s IH]; [done|].
  cbn [replace_from]. rewrite filter_cons.
  case_bool_decide as Hp.
  - apply prefix_cons_inv_1 in Hp. subst x.
    rewrite decide_False by (intros ?; congruence). apply IH.
  - rewrite decide_True; [by rewrite IH|].
    intros ->. apply Hp. apply prefix_cons, prefix_nil.
Qed.

Lemma replace_single (c : N) (s : pystr) :
  replace [c] [] s = filter (λ x, x ≠ c) s.
Proof. apply replace_from_single. Qed.

Lemma replace_from_absent (h : N) (t new s : pystr) :
  h ∉ s → replace_from (h :: t) new 0 s = s.
Proof.
  induction s as [|x s IH]; [done|]. intros Hn.
  apply not_elem_of_cons in Hn as [Hx Hs].
  cbn [replace_from]. rewrite bool_decide_eq_false_2.
  - by rewrite IH.
  - intros Hp. apply prefix_cons_inv_1 in Hp. congruence.
Qed.

Lemma replace_absent (h : N) (t new s : pystr) :
  h ∉ s → replace (h :: t) new s = s.
Proof. apply replace_from_absent. Qed.

Lemma strip_mojibake_filter (s : pystr) :
  strip_mojibake s = filter (λ c, ¬ denied c) s.
Proof.
  unfold strip_mojibake. rewrite !replace_single.
  rewrite replace_absent.
  2:{ intros Hin. rewrite !list_elem_of_filter in Hin. naive_solver. }
  induction s as [|x s IH]; [done|].
  rewrite !filter_cons. unfold denied.
  destruct (decide (x = low_quote)) as [->|?].
  { rewrite decide_False by (intros ?; congruence).
    rewrite (decide_False (P := ¬ _)); [done|]. intros Hd. apply Hd. set_solver. }
  rewrite (decide_True (P := x ≠ low_quote)) by done. rewrite !filter_cons.
  destruct (decide (x = florin)) as [->|?].
  { rewrite decide_False by (intros ?; congruence).
    rewrite (decide_False (P := ¬ _)); [done|]. intros Hd. apply Hd. set_solver. }
  rewrite (decide_True (P := x ≠ florin)) by done. rewrite !filter_cons.
  destruct (decide (x = a_tilde)) as [->|?].
  { rewrite decide_False by (intros ?; congruence).
    rewrite (decide_False (P := ¬ _)); [done|]. intros Hd. apply Hd. set_solver. }
  rewrite (decide_True (P := x ≠ a_tilde)) by done. rewrite !filter_cons.
  destruct (decide (x = a_circ)) as [->|?].
  { rewrite decide_False by (intros ?; congruence).
    rewrite (decide_False (P := ¬ _)); [done|]. intros Hd. apply Hd. set_solver. }
  rewrite (decide_True (P := x ≠ a_circ)) by done.
  rewrite (decide_True (P := ¬ _)); [by rewrite IH|]. set_solver.
Qed.


Lemma strip_mojibake_clean (s : pystr) :
  Forall (λ c, ¬ denied c) (strip_mojibake s).
Proof.
  rewrite strip_mojibake_filter. apply Forall_forall.
  intros c Hc. by apply list_elem_of_filter in Hc as [? _].
Qed.

Lemma replace_mojibake_clean (p s : pystr) :
  p ∈ mojibake → Forall (λ c, ¬ denied c) s → replace p [] s = s.
Proof.
  intros Hp Hs.
  assert (∃ h t, p = h :: t ∧ denied h) as (h & t & -> & Hd).
  { unfold mojibake, denied in *. set_solver. }
  apply replace_absent. intros Hin.
  rewrite Forall_forall in Hs. by apply (Hs h).
Qed.

End StringFacts.

(** ** Frames *)

Section FrameFacts.
Import Frame.

Lemma get_col_set_col_eq name c (f : frame) :
  get_col name (set_col name c f) = Some c.
Proof.
  induction f as [|[n c0] f IH]; simpl.
  - by rewrite decide_True.
  - destruct (decide (n = name)) as [->|Hn]; simpl.
    + by rewrite decide_True.
    + by rewrite decide_False.
Qed.

Lemma get_col_set_col_ne name name' c (f : frame) :
  name ≠ name' → get_col name' (set_col name c f) = get_col name' f.
Proof.
  intros Hne. induction f as [|[n c0] f IH]; simpl.
  - by rewrite decide_False.
  - destruct (decide (n = name)) as [->|Hn]; simpl.
    + by rewrite !decide_False.
    + by rewrite IH.
Qed.

Lemma names_set_col name c c0 (f : frame) :
  get_col name f = Some c0 → names (set_col name c f) = names f.
Proof.
  unfold names. induction f as [|[n c1] f IH]; cbn [get_col set_col]; [done|].
  destruct (decide (n = name)) as [->|Hn]; [done|].
  intros Hg. rewrite !fmap_cons. f_equal. by apply IH.
Qed.

Lemma set_col_nrows name c (f : frame) :
  length (cells c) = nrows f → nrows (set_col name c f) = nrows f.
Proof.
  destruct f as [|[n c0] f]; simpl; [done|].
  by destruct (decide (n = name)).
Qed.

Lemma set_col_Forall (P : pystr * column → Prop) name c (f : frame) :
  Forall P f → P (name, c) → Forall P (set_col name c f).
Proof.
  intros Hf Hc. induction Hf as [|[n c0] f Hx Hf IH]; simpl.
  - by constructor.
  - destruct (decide (n = name)) as [->|Hn]; by constructor.
Qed.

Lemma set_col_wf name c (f : frame) :
  wf f → length (cells c) = nrows f → wf (set_col name c f).
Proof.
  unfold wf. intros Hf Hc. rewrite set_col_nrows by done.
  by apply set_col_Forall.
Qed.

Lemma get_col_elem_of name c (f : frame) :
  get_col name f = Some c → (name, c) ∈ f.
Proof.
  induction f as [|[n c0] f IH]; simpl; [done|].
  destruct (decide (n = name)) as [->|Hn].
  - intros [= ->]. apply list_elem_of_here.
  - intros Hg. apply list_elem_of_further. by apply IH.
Qed.

Lemma wf_get_col name c (f : frame) :
  wf f → get_col name f = Some c → length (cells c) = nrows f.
Proof.
  intros Hf Hg. apply get_col_elem_of in Hg.
  unfold wf in Hf. rewrite Forall_forall in Hf. by apply (Hf _ Hg).
Qed.

Lemma elem_of_set_col p name c (f : frame) :
  p ∈ set_col name c f → p ∈ f ∨ p = (name, c).
Proof.
  induction f as [|[n c0] f IH]; simpl.
  - rewrite list_elem_of_singleton. by right.
  - destruct (decide (n = name)) as [->|Hn]; rewrite !elem_of_cons.
    + intros [->|?]; [by right|by left; right].
    + intros [->|Hp]; [by left; left|].
      destruct (IH Hp) as [?|?]; [by left; right|by right].
Qed.

Lemma loc_set_get_col_ne idx name name' v (f : frame) :
  name ≠ name' → get_col name' (loc_set idx name v f) = get_col name' f.
Proof.
  intros Hne. unfold loc_set.
  destruct (get_col name f); by rewrite get_col_set_col_ne.
Qed.

Lemma loc_set_wf idx name v (f : frame) :
  wf f → wf (loc_set idx name v f).
Proof.
  intros Hf. unfold loc_set.
  destruct (get_col name f) as [c|] eqn:Hg; apply set_col_wf; try done; simpl.
  - rewrite length_insert. by apply (wf_get_col name).
  - by rewrite length_insert, length_replicate.
Qed.

Lemma loc_set_nrows idx name v (f : frame) :
  wf f → nrows (loc_set idx name v f) = nrows f.
Proof.
  intros Hf. unfold loc_set.
  destruct (get_col name f) as [c|] eqn:Hg; apply set_col_nrows; simpl.
  - rewrite length_insert. by apply (wf_get_col name).
  - by rewrite length_insert, length_replicate.
Qed.

Lemma loc_set_names idx name v c (f : frame) :
  get_col name f = Some c → names (loc_set idx name v f) = names f.
Proof.
  intros Hg. unfold loc_set. rewrite Hg. by apply (names_set_col _ _ c).
Qed.

Lemma loc_set_is_Some idx name v (f : frame) :
  is_Some (get_col name (loc_set idx name v f)).
Proof.
  unfold loc_set.
  destruct (get_col name f); rewrite get_col_set_col_eq; by eexists.
Qed.

End FrameFacts.

(** ** The SKU propagator *)

Section PropagatorFacts.
Import PyStr Series Frame Propagator Spec.
Context `{Runtime}.

Lemma build_price_lookup_notna ref_clean :
  map_Forall (λ _ p, notna p = true) (build_price_lookup ref_clean).
Proof.
  unfold build_price_lookup.
  assert (∀ m : gmap value value,
    map_Forall (λ _ p, notna p = true) m →
    map_Forall (λ _ p, notna p = true)
      (foldl
         (λ price_lookup row,
            let stock_id := Stock_ID row in
            let new_price := New_Price row in
            if bool_decide (stock_id ≠ VStr []) && notna stock_id
               && notna new_price
               && bool_decide (py_str stock_id ≠ py "nan")
            then <[stock_id := new_price]> price_lookup
            else price_lookup)
         m ref_clean)) as Hgen.
  { induction ref_clean as [|r rs IH]; intros m Hm; simpl; [done|].
    apply IH.
    destruct (bool_decide (Stock_ID r ≠ VStr []) && notna (Stock_ID r)
              && notna (New_Price r)
              && bool_decide (py_str (Stock_ID r) ≠ py "nan")) eqn:Hc;
      [|done].
    apply map_Forall_insert_2; [|done].
    apply andb_prop in Hc as [Hc _]. by apply andb_prop in Hc as [_ Hc]. }
  apply Hgen, map_Forall_empty.
Qed.

Lemma propagate_spec lk skus : ∀ idx result n r' n',
  map_Forall (λ _ p, notna p = true) lk →
  wf result →
  propagate lk skus idx result n = (r', n') →
  wf r' ∧ nrows r' = nrows result
  ∧ (∀ name, name ≠ variant_price → get_col name r' = get_col name result)
  ∧ (is_Some (get_col variant_price result) → names r' = names result)
  ∧ skipped_blank_sku n'
    = skipped_blank_sku n + length (filter (λ v, is_blank v = true) skus)
  ∧ successful_updates n'
    = successful_updates n
      + length (filter (λ v, is_blank v = false ∧ is_Some (lk !! v)) skus)
  ∧ skipped_no_match n'
    = skipped_no_match n
      + length (filter (λ v, is_blank v = false ∧ lk !! v = None) skus).
Proof.
  induction skus as [|v skus IH]; intros idx result n r' n' Hlk Hwf Hp.
  { simpl in Hp. injection Hp as <- <-. rewrite !filter_nil. simpl.
    repeat split; auto with lia. }
  cbn [propagate] in Hp. rewrite !filter_cons. fold (is_blank v) in Hp.
  destruct (is_blank v) eqn:Hb.
  { apply IH in Hp as (? & ? & ? & ? & Hbl & Hs & Hn); [|done..].
    rewrite decide_True by done.
    rewrite !decide_False by (intros [? _]; done).
    simpl in *. repeat split; auto with lia. }
  rewrite decide_False by done.
  destruct (lk !! v) as [p|] eqn:Hv.
  - rewrite (Hlk _ _ Hv) in Hp.
    apply IH in Hp as (? & Hr & Hg & Hnm & Hbl & Hs & Hn);
      [|done|by apply loc_set_wf].
    rewrite decide_True by (split; [done|by eexists]).
    rewrite decide_False by (intros [_ ?]; done).
    rewrite loc_set_nrows in Hr by done.
    simpl in *. repeat split; auto with lia.
    + intros name Hne. rewrite Hg by done. by apply loc_set_get_col_ne.
    + intros [c Hc]. rewrite Hnm by apply loc_set_is_Some.
      by apply (loc_set_names _ _ _ c).
  - apply IH in Hp as (? & ? & ? & ? & Hbl & Hs & Hn); [|done..].
    rewrite decide_False by (intros [_ [? ?]]; done).
    rewrite decide_True by done.
    simpl in *. repeat split; auto with lia.
Qed.

Lemma classes_partition (lk : gmap value value) (skus : list value) :
  length (filter (λ v, is_blank v = false ∧ is_Some (lk !! v)) skus)
  + length (filter (λ v, is_blank v = true) skus)
  + length (filter (λ v, is_blank v = false ∧ lk !! v = None) skus)
  = length skus.
Proof.
  induction skus as [|v skus IH]; [done|].
  rewrite !filter_cons.
  destruct (is_blank v) eqn:Hb; destruct (lk !! v) as [p|] eqn:Hv;
    repeat case_decide; simpl; try lia;
    exfalso; naive_solver.
Qed.

End PropagatorFacts.

Section PropagatorClaims.
Import PyStr Series Frame Propagator Spec.
Context `{Runtime}.

Lemma variant_sku_ne_price : variant_sku ≠ variant_price.
Proof. by vm_compute. Qed.

Lemma update_variant_price_fixed_spec upload reference sku :
  wf upload →
  get_col variant_sku upload = Some sku →
  ∃ result n,
    update_variant_price_fixed upload reference = Some (result, n)
    ∧ propagate (price_mapping reference) (clean_key <$> cells sku) 0
        (set_col variant_sku (Column true (clean_key <$> cells sku)) upload)
        (Counters 0 0 0) = (result, n)
    ∧ wf (set_col variant_sku (Column true (clean_key <$> cells sku)) upload)
    ∧ nrows (set_col variant_sku (Column true (clean_key <$> cells sku)) upload)
      = nrows upload.
Proof.
  intros Hwf Hsku.
  destruct (propagate (price_mapping reference) (clean_key <$> cells sku) 0
              (set_col variant_sku (Column true (clean_key <$> cells sku))
                 upload) (Counters 0 0 0)) as [result n] eqn:Hp.
  exists result, n. split.
  { unfold update_variant_price_fixed. rewrite Hsku. cbn [mbind option_bind].
    cbn [cells]. f_equal. exact Hp. }
  split; [done|].
  assert (length (cells (Column true (clean_key <$> cells sku)))
          = nrows upload) as Hlen.
  { simpl. rewrite length_fmap. by apply (wf_get_col variant_sku). }
  split; [by apply set_col_wf|by apply set_col_nrows].
Qed.

(** C2. Propagation conservation: on a product table that has the column
    "Variant SKU", the propagator returns a table with as many rows as it
    got, and its three counters add up to that number of rows; blank
    counts the rows whose cleaned SKU is empty or missing, successful the
    other rows whose SKU is a key of the price mapping, no-match the
    rest. *)
Theorem propagation_conservation upload reference sku :
  wf upload →
  get_col variant_sku upload = Some sku →
  ∃ result n,
    update_variant_price_fixed upload reference = Some (result, n)
    ∧ nrows result = nrows upload
    ∧ successful_updates n + skipped_blank_sku n + skipped_no_match n
      = nrows upload
    ∧ skipped_blank_sku n
      = length (filter (λ v, is_blank v = true) (clean_key <$> cells sku))
    ∧ successful_updates n
      = length (filter (λ v, is_blank v = false
                             ∧ is_Some (price_mapping reference !! v))
                  (clean_key <$> cells sku))
    ∧ skipped_no_match n
      = length (filter (λ v, is_blank v = false
                             ∧ price_mapping reference !! v = None)
                  (clean_key <$> cells sku)).
Proof.
  intros Hwf Hsku.
  destruct (update_variant_price_fixed_spec upload reference sku Hwf Hsku)
    as (result & n & Hu & Hp & Hwf' & Hrows).
  exists result, n. split; [done|].
  apply propagate_spec in Hp
    as (_ & Hr & _ & _ & Hb & Hs & Hn);
    [|apply build_price_lookup_notna|done].
  simpl in Hb, Hs, Hn. rewrite Hb, Hs, Hn.
  split; [congruence|]. split; [|done].
  rewrite classes_partition, length_fmap.
  by apply (wf_get_col variant_sku).
Qed.

(** C7, amended. The propagator adds and removes no row, keeps the
    columns and their order when "Variant Price" is there, and returns
    every column other than "Variant Price" and "Variant SKU" as it got
    it; "Variant SKU" comes back cleaned: cast to a string, stripped, and
    'nan' replaced by the empty string. *)
Theorem propagator_frame upload reference sku result n :
  wf upload →
  get_col variant_sku upload = Some sku →
  update_variant_price_fixed upload reference = Some (result, n) →
  wf result
  ∧ nrows result = nrows upload
  ∧ (is_Some (get_col variant_price upload) → names result = names upload)
  ∧ (∀ name, name ≠ variant_price → name ≠ variant_sku →
       get_col name result = get_col name upload)
  ∧ get_col variant_sku result
    = Some (Column true (clean_key <$> cells sku)).
Proof.
  intros Hwf Hsku Hu.
  destruct (update_variant_price_fixed_spec upload reference sku Hwf Hsku)
    as (result' & n' & Hu' & Hp & Hwf' & Hrows).
  rewrite Hu in Hu'. injection Hu' as <- <-.
  apply propagate_spec in Hp
    as (Hwfr & Hr & Hg & Hnm & _);
    [|apply build_price_lookup_notna|done].
  split; [done|]. split; [congruence|]. split; [|split].
  - intros [c Hc]. rewrite Hnm.
    + by apply (names_set_col _ _ sku).
    + rewrite get_col_set_col_ne by apply variant_sku_ne_price. by eexists.
  - intros name Hne1 Hne2. rewrite Hg by done.
    by apply get_col_set_col_ne.
  - rewrite Hg by apply variant_sku_ne_price. apply get_col_set_col_eq.
Qed.

End PropagatorClaims.

Lemma propagation_conservation_witness :
  ∃ result n,
    Propagator.update_variant_price_fixed Examples.upload Examples.reference
    = Some (result, n)
    ∧ Frame.nrows result = 3
    ∧ Propagator.successful_updates n + Propagator.skipped_blank_sku n
      + Propagator.skipped_no_match n = 3.
Proof.
  destruct (propagation_conservation Examples.upload Examples.reference
              Examples.sku_column)
    as (result & n & Hu & Hr & Hsum & _).
  - repeat constructor.
  - reflexivity.
  - exists result, n. exact (conj Hu (conj Hr Hsum)).
Defined.

Lemma propagator_frame_witness :
  ∃ result n,
    Propagator.update_variant_price_fixed Examples.upload Examples.reference
    = Some (result, n)
    ∧ Frame.get_col Examples.handle result
      = Frame.get_col Examples.handle Examples.upload.
Proof.
  destruct (Propagator.update_variant_price_fixed Examples.upload
              Examples.reference) as [[result n]|] eqn:Hu; [|by vm_compute in Hu].
  exists result, n. split; [done|].
  destruct (propagator_frame Examples.upload Examples.reference
              Examples.sku_column result n) as (_ & _ & _ & Hg & _).
  - repeat constructor.
  - reflexivity.
  - exact Hu.
  - apply Hg; by vm_compute.
Defined.

(** C7, as stated, fails: the column "Variant SKU" of a product row whose
    SKU has blanks around it is not returned unchanged. *)
Lemma propagator_frame_counterexample :
  ∃ result n,
    Propagator.update_variant_price_fixed Examples.upload Examples.reference
    = Some (result, n)
    ∧ Frame.get_col Propagator.variant_sku result
      ≠ Frame.get_col Propagator.variant_sku Examples.upload.
Proof.
  eexists _, _. split; [reflexivity|]. by vm_compute.
Qed.

(** ** The output sanitizer *)

Section SanitizerFacts.
Import PyStr Series Frame Sanitizer Pipeline Spec.
Context `{Runtime}.


Lemma sanitize_cell_clean (x : value) : clean_value (sanitize_cell x).
Proof.
  unfold sanitize_cell, notna. destruct x; simpl; try done;
    apply strip_mojibake_clean.
Qed.

Lemma sanitize_columns_sanitized (f : frame) : sanitized (sanitize_columns f).
Proof.
  unfold sanitized, sanitize_columns. rewrite Forall_fmap.
  apply Forall_forall. intros [name c] _. simpl.
  destruct (dtype_object c) eqn:Hd; simpl.
  - intros _. rewrite Forall_fmap. apply Forall_forall.
    intros x _. apply sanitize_cell_clean.
  - by rewrite Hd.
Qed.

Lemma str_map_replace_clean p (v : value) :
  p ∈ mojibake → clean_value v → str_map (replace p []) v = v.
Proof.
  intros Hp Hv. destruct v; simpl in *; try done.
  by rewrite replace_mojibake_clean.
Qed.

Lemma set_col_get_col_id name c (f : frame) :
  get_col name f = Some c → set_col name c f = f.
Proof.
  induction f as [|[n c0] f IH]; simpl; [done|].
  destruct (decide (n = name)) as [->|Hn].
  - by intros [= ->].
  - intros Hg. by rewrite IH.
Qed.

Lemma fmap_str_map_replace_clean p (cs : list value) :
  p ∈ mojibake → Forall clean_value cs →
  str_map (replace p []) <$> cs = cs.
Proof.
  intros Hp Hs. induction Hs as [|v cs Hv Hcs IH]; [done|].
  rewrite fmap_cons, IH. by rewrite str_map_replace_clean.
Qed.

Lemma body_step_id p (f : frame) c :
  p ∈ mojibake → sanitized f →
  get_col body_html f = Some c → dtype_object c = true →
  match get_col body_html f with
  | Some c => set_col body_html (map_cells (str_map (replace p [])) c) f
  | None => f
  end = f.
Proof.
  intros Hp Hs Hg Hd. rewrite Hg.
  apply set_col_get_col_id. rewrite Hg. f_equal.
  apply get_col_elem_of in Hg.
  unfold sanitized in Hs. rewrite Forall_forall in Hs.
  specialize (Hs _ Hg Hd). cbn [snd] in Hs.
  destruct c as [d cs]. unfold map_cells. cbn [cells dtype_object] in *.
  f_equal. symmetry. by apply fmap_str_map_replace_clean.
Qed.

(** On a sanitized table the five [.str.replace] of "Body (HTML)" change
    nothing; they can only fail. *)
Lemma clean_body_html_id (f out : frame) :
  sanitized f → clean_body_html f = Some out → out = f.
Proof.
  intros Hs. unfold clean_body_html.
  destruct (get_col body_html f) as [c|] eqn:Hg; [|by intros [= <-]].
  destruct (dtype_object c) eqn:Hd; [|done].
  intros [= <-]. unfold mojibake. simpl.
  rewrite !(body_step_id _ f c); first done; try done;
    unfold mojibake; set_solver.
Qed.

Lemma process_output now reference upload gold silver out st :
  process_precious_metals_data now reference upload gold silver
  = Some (out, st) →
  ∃ reference' pre n,
    priced_upload now reference upload gold silver
    = Some (reference', pre, n)
    ∧ out = sanitize_columns pre
    ∧ st = Stats (Propagator.successful_updates n)
             (Propagator.skipped_blank_sku n)
             (Propagator.skipped_no_match n)
             (nrows out) (length reference').
Proof.
  unfold process_precious_metals_data. intros Hp.
  destruct (priced_upload now reference upload gold silver)
    as [[[reference' pre] n]|] eqn:Hpre; [|done].
  cbn [mbind option_bind] in Hp.
  destruct (clean_body_html (sanitize_columns pre)) as [out'|] eqn:Hb;
    [|done].
  cbn [mbind option_bind] in Hp. injection Hp as <- <-.
  apply clean_body_html_id in Hb as ->; [|apply sanitize_columns_sanitized].
  by exists reference', pre, n.
Qed.

Lemma process_output_clean now reference upload gold silver out st :
  process_precious_metals_data now reference upload gold silver
  = Some (out, st) →
  ∀ name c, (name, c) ∈ out → dtype_object c = true →
  ∀ v, v ∈ cells c → clean_value v.
Proof.
  intros Hp name c Hc Hd v Hv.
  apply process_output in Hp as (reference' & pre & n & _ & -> & _).
  pose proof (sanitize_columns_sanitized pre) as Hs.
  unfold sanitized in Hs. rewrite Forall_forall in Hs.
  specialize (Hs _ Hc Hd). cbn [snd] in Hs.
  rewrite Forall_forall in Hs. by apply Hs.
Qed.


(** C10. The sanitizer stringifies text columns: the table the pipeline
    returns is the table that reaches the sanitizer with, in every column
    of object dtype, each cell that is not missing replaced by [str] of
    it with the denylisted sequences removed, and each missing cell and
    each other column left as it is; so every cell of an object column of
    the output that is not missing is a string. *)
Theorem sanitizer_stringifies now reference upload gold silver out st :
  process_precious_metals_data now reference upload gold silver
  = Some (out, st) →
  ∃ reference' pre n,
    priced_upload now reference upload gold silver
    = Some (reference', pre, n)
    ∧ Forall2
        (λ p q,
           q.1 = p.1 ∧ dtype_object q.2 = dtype_object p.2
           ∧ if dtype_object p.2
             then cells q.2
                  = (λ x, if isna x then x
                          else VStr (strip_mojibake (py_str x)))
                      <$> cells p.2
             else q.2 = p.2)
        pre out
    ∧ ∀ name c, (name, c) ∈ out → dtype_object c = true →
      ∀ v, v ∈ cells c → isna v = false → ∃ s, v = VStr s.
Proof.
  intros Hp.
  pose proof (process_output_clean _ _ _ _ _ _ _ Hp) as Hclean.
  apply process_output in Hp as (reference' & pre & n & Hpre & -> & _).
  exists reference', pre, n. split; [done|]. split.
  - unfold sanitize_columns. apply Forall2_fmap_r, Forall_Forall2_diag.
    apply Forall_forall. intros [name c] _. simpl.
    destruct (dtype_object c) eqn:Hd; cbn [fst snd map_cells dtype_object cells];
      rewrite Hd; [|done].
    split; [done|]. split; [done|].
    apply list_fmap_ext. intros i x _.
    unfold sanitize_cell, notna. by destruct (isna x).
  - intros name c Hc Hd v Hv Hna.
    pose proof (Hclean name c Hc Hd v Hv) as Hs.
    destruct v as [|s| |]; simpl in Hs; try done. by exists s.
Qed.

End SanitizerFacts.


Lemma sanitizer_stringifies_witness :
  ∃ out st,
    Pipeline.process_precious_metals_data (Examples.midnight 10)
      Examples.raw_reference Examples.upload 2000 25 = Some (out, st)
    ∧ ∀ name c, (name, c) ∈ out → dtype_object c = true →
      ∀ v, v ∈ cells c → isna v = false → ∃ s, v = VStr s.
Proof.
  destruct (Pipeline.process_precious_metals_data (Examples.midnight 10)
              Examples.raw_reference Examples.upload 2000 25)
    as [[out st]|] eqn:Hp; [|by vm_compute in Hp].
  exists out, st. split; [reflexivity|].
  destruct (sanitizer_stringifies _ _ _ _ _ _ _ Hp) as (_ & _ & _ & _ & _ & Hs).
  exact Hs.
Defined.

(** The booleans of "Published" leave the pipeline as the strings 'True'
    and 'False', and the handle loses its two denylisted characters. *)
Example sanitizer_on_upload :
  (λ r, (Frame.get_col Examples.handle r.1,
         Frame.get_col Examples.published r.1))
    <$> Pipeline.process_precious_metals_data (Examples.midnight 10)
          Examples.raw_reference Examples.upload 2000 25
  = Some (Some (Column true [VStr (PyStr.py "ring"); VStr [65%N]; VNa]),
          Some (Column true [VStr (PyStr.py "True"); VNa;
                             VStr (PyStr.py "False")])).
Proof. by vm_compute. Qed.

(** ** Sorting *)

Lemma Sorted_weaken {A} (R R' : A → A → Prop) (l : list A) :
  (∀ a b, R a b → R' a b) → Sorted R l → Sorted R' l.
Proof.
  intros HR. induction 1 as [|x l Hl IH Hx]; constructor; [done|].
  destruct Hx; constructor. by apply HR.
Qed.

Section SortFacts.
Import Series.
Context {A : Type} (le : A → A → bool).

Lemma insert_by_perm x (l : list A) : insert_by le x l ≡ₚ x :: l.
Proof.
  induction l as [|y l IH]; simpl; [done|].
  destruct (le x y); [done|]. rewrite IH. apply Permutation_swap.
Qed.

Lemma sort_by_perm (l : list A) : sort_by le l ≡ₚ l.
Proof.
  induction l as [|x l IH]; simpl; [done|].
  unfold sort_by in *. simpl. by rewrite insert_by_perm, IH.
Qed.

Lemma sort_by_length (l : list A) : length (sort_by le l) = length l.
Proof. by rewrite sort_by_perm. Qed.

(** A list already in order is returned as it is. *)
Lemma sort_by_sorted_id (l : list A) :
  Sorted (λ a b, le a b = true) l → sort_by le l = l.
Proof.
  induction 1 as [|x l Hl IH Hx]; [done|].
  unfold sort_by in *. simpl. rewrite IH.
  destruct Hx as [|y l' Hxy]; simpl; [done|]. by rewrite Hxy.
Qed.

Hypothesis le_total : ∀ a b, le a b = false → le b a = true.



End SortFacts.

(** ** Multiplier tables *)

Section TableFacts.
Import Series Tables Spec.


Lemma sort_values_perm (t : list factor_row) : sort_values t ≡ₚ t.
Proof. apply sort_by_perm. Qed.

Lemma increasing_sort_values_id (t : list factor_row) :
  increasing t → sort_values t = t.
Proof.
  intros Ht. apply sort_by_sorted_id.
  apply StronglySorted_Sorted in Ht.
  eapply Sorted_weaken; [|exact Ht].
  intros a b Hab. simpl in Hab. apply Qle_bool_iff. by apply Qlt_le_weak.
Qed.

(** A smaller divisor gives a greater breakpoint. *)
Lemma div_lt_div (spot d1 d2 : Q) :
  (0 < spot)%Q → (0 < d2)%Q → (d2 < d1)%Q → (spot / d1 < spot / d2)%Q.
Proof.
  intros Hs Hd2 Hlt. unfold Qdiv.
  apply Qmult_lt_l; [done|].
  exact (proj1 (Qinv_lt_contravar d2 d1 Hd2 (Qlt_trans _ _ _ Hd2 Hlt)) Hlt).
Qed.





End TableFacts.


(** ** The multiplier resolver *)

Section ResolverFacts.
Import PyStr Series Tables Resolver Spec.

(** What [find_multiplier_above] computes on a number: the factor of the
    first row above it, or of the last row when no row is above it. *)
Lemma filter_above (v : Q) (t : list factor_row) :
  match filter (λ r, (v < breakpoint r)%Q) t with
  | [] => none_above v t
  | r :: _ => first_above v t r
  end.
Proof.
  induction t as [|x t IH]; [by constructor|].
  rewrite filter_cons. destruct (decide (v < breakpoint x)%Q) as [Hx|Hx].
  - exists [], t. by repeat split.
  - apply Qnot_lt_le in Hx.
    destruct (filter (λ r, (v < breakpoint r)%Q) t) as [|r rs].
    + by constructor.
    + destruct IH as (pre & post & -> & Hpre & Hr).
      exists (x :: pre), post. repeat split; [|done]. by constructor.
Qed.

Lemma find_multiplier_above_number (v : Q) (t : list factor_row) :
  t ≠ [] →
  ∃ r, find_multiplier_above (VNum v) t = Some (VNum (factor r))
       ∧ (first_above v t r ∨ (none_above v t ∧ last t = Some r)).
Proof.
  intros Ht. unfold find_multiplier_above. simpl.
  pose proof (filter_above v t) as Hf.
  destruct (filter (λ r, (v < breakpoint r)%Q) t) as [|r rs].
  - destruct (last t) as [r|] eqn:Hl.
    + exists r. split; [done|]. by right.
    + by apply last_None in Hl.
  - exists r. split; [done|]. by left.
Qed.

Lemma sort_values_nonempty (t : list factor_row) :
  t ≠ [] → sort_values t ≠ [].
Proof.
  intros Ht Hs. apply Ht. apply Permutation_nil_r.
  rewrite <- Hs. by rewrite sort_values_perm.
Qed.

Lemma gold_table_nonempty (spot : Q) : gold_table spot ≠ [].
Proof. done. Qed.

Lemma silver_table_nonempty (spot : Q) : silver_table spot ≠ [].
Proof. done. Qed.

Lemma lookup_multiplier_by_metal_cases (gold silver : list factor_row)
    (row : ref_row) :
  gold ≠ [] → silver ≠ [] →
  let table :=
    if decide (Metal row = VStr (py "S/S")) then silver else gold in
  (isna (Gold_Market row) = true ∨ isna (Metal row) = true →
   lookup_multiplier_by_metal gold silver row = Some VNa)
  ∧ ∀ v, Gold_Market row = VNum v → isna (Metal row) = false →
      ∃ r, lookup_multiplier_by_metal gold silver row
           = Some (VNum (factor r))
           ∧ (first_above v table r
              ∨ (none_above v table ∧ last table = Some r)).
Proof.
  intros Hg Hs table. split.
  - intros Hna. unfold lookup_multiplier_by_metal.
    destruct Hna as [-> | ->]; [done|]. by rewrite orb_true_r.
  - intros v Hv Hm. unfold lookup_multiplier_by_metal.
    rewrite Hv, Hm. cbn [isna orb]. unfold table.
    destruct (decide (Metal row = VStr (py "S/S")));
      by apply find_multiplier_above_number.
Qed.


Lemma to_numeric_cases `{Runtime} (x : value) :
  to_numeric x = VNa ∨ ∃ v, to_numeric x = VNum v.
Proof.
  destruct x as [|s|q|b]; simpl; eauto.
  destruct (num_of_str s); eauto.
Qed.

(** The resolver of the pipeline never raises on the generated tables,
    whatever the prices, once Gold Market has been made numeric. *)
Lemma lookup_multiplier_total (reference : list ref_row) (gold silver : Q) :
  Forall (λ r, Gold_Market r = VNa ∨ ∃ v, Gold_Market r = VNum v) reference →
  ∃ reference',
    lookup_multiplier reference (gold_table gold) (silver_table silver)
    = Some reference'
    ∧ Forall2 (λ r r', ∃ m, r' = set_Multiplier m r
                            ∧ lookup_multiplier_by_metal
                                (sort_values (gold_table gold))
                                (sort_values (silver_table silver)) r
                              = Some m)
        reference reference'.
Proof.
  unfold lookup_multiplier. induction 1 as [|r rs Hr Hrs IH].
  { exists []. split; [done|constructor]. }
  destruct IH as (rs' & Hrs' & Hall).
  assert (∃ m, lookup_multiplier_by_metal (sort_values (gold_table gold))
                 (sort_values (silver_table silver)) r = Some m)
    as [m Hm].
  { destruct (lookup_multiplier_by_metal_cases
                (sort_values (gold_table gold))
                (sort_values (silver_table silver)) r) as [HA HB];
      [by apply sort_values_nonempty..|].
    destruct Hr as [Hr|[v Hr]].
    - exists VNa. apply HA. left. by rewrite Hr.
    - destruct (isna (Metal r)) eqn:Hmetal.
      + exists VNa. apply HA. by right.
      + destruct (HB v Hr eq_refl) as (x & Hx & _). by eexists. }
  exists (set_Multiplier m r :: rs'). split.
  - cbn [mapM]. rewrite Hm. cbn [mbind option_bind]. rewrite Hrs'. done.
  - constructor; [|done]. by exists m.
Qed.

End ResolverFacts.


(** The scenario of the specification: Gold Market 25.00 on silver with the
    spot at 25.00 meets the breakpoint 25 exactly, and falls to the last
    row. *)
Example resolver_on_equal_breakpoint :
  Resolver.lookup_multiplier_by_metal
    (Tables.sort_values (Tables.gold_table 2000))
    (Tables.sort_values (Tables.silver_table 25))
    (Examples.priced (PyStr.py "ABC1") 10)
  = Some (VNum 1).
Proof. by vm_compute. Qed.

(** ** Reference normalization *)


Section ReferenceFacts.
Import PyStr Series Reference Spec.
Context `{Runtime}.

Lemma not_after_spec today (r : ref_row) :
  not_after today r = true ↔ on_or_before (Max_Date r) today.
Proof.
  unfold not_after, on_or_before. destruct (Max_Date r) as [d|].
  - rewrite Z.leb_le. split; [by exists d|]. by intros (x & [= ->] & ?).
  - split; [done|]. by intros (x & ? & _).
Qed.


#[local] Instance max_date_before_trans :
  Transitive (λ a b : ref_row, max_date_before a b = true).
Proof.
  intros a b c. unfold max_date_before.
  destruct (Max_Date a), (Max_Date b), (Max_Date c); try done.
  rewrite !Z.leb_le. lia.
Qed.


Lemma elem_of_dated_reference (reference : list ref_row) r :
  r ∈ dated_reference reference ↔ r ∈ with_max_date <$> reference.
Proof. unfold dated_reference. by rewrite sort_by_perm. Qed.

Lemma elem_of_effective_reference now (reference : list ref_row) r :
  r ∈ effective_reference now reference
  ↔ r ∈ with_max_date <$> reference
    ∧ on_or_before (Max_Date r) (timestamp_normalize now).
Proof.
  unfold effective_reference.
  rewrite list_elem_of_filter, elem_of_dated_reference, not_after_spec.
  tauto.
Qed.


(** *** Dropping duplicates *)

Lemma drop_duplicates_from_first seen (rows : list ref_row) r' :
  r' ∈ drop_duplicates_from seen rows →
  (Stock_ID r' ∉ seen)
  ∧ ∃ l1 l2, rows = l1 ++ (r' :: l2)
             ∧ Forall (λ x, Stock_ID x ≠ Stock_ID r') l1.
Proof.
  revert seen. induction rows as [|x rows IH]; intros seen; simpl.
  { by intros ?%elem_of_nil. }
  destruct (decide (Stock_ID x ∈ seen)) as [Hx|Hx].
  - intros Hr. destruct (IH _ Hr) as (Hs & l1 & l2 & -> & Hl1).
    split; [done|]. exists (x :: l1), l2. split; [done|].
    constructor; [|done]. intros Heq. apply Hs. by rewrite <- Heq.
  - intros [->|Hr]%elem_of_cons.
    + split; [done|]. exists [], rows. by split.
    + destruct (IH _ Hr) as (Hs & l1 & l2 & -> & Hl1).
      apply not_elem_of_cons in Hs as [Hne Hs].
      split; [done|]. exists (x :: l1), l2. split; [done|].
      constructor; [|done]. congruence.
Qed.


Lemma drop_duplicates_from_sublist seen (rows : list ref_row) r' :
  r' ∈ drop_duplicates_from seen rows → r' ∈ rows.
Proof.
  intros Hr. apply drop_duplicates_from_first in Hr as (_ & l1 & l2 & -> & _).
  apply elem_of_app. right. apply list_elem_of_here.
Qed.

Lemma drop_duplicates_from_keys seen (rows : list ref_row) r :
  r ∈ rows →
  Stock_ID r ∈ seen
  ∨ ∃ r', r' ∈ drop_duplicates_from seen rows ∧ Stock_ID r' = Stock_ID r.
Proof.
  revert seen. induction rows as [|x rows IH]; intros seen; simpl.
  { by intros ?%elem_of_nil. }
  intros [->|Hr]%elem_of_cons.
  - destruct (decide (Stock_ID x ∈ seen)) as [Hx|Hx]; [by left|].
    right. exists x. split; [apply list_elem_of_here|done].
  - destruct (decide (Stock_ID x ∈ seen)) as [Hx|Hx]; [by apply IH|].
    destruct (IH (Stock_ID x :: seen) Hr) as [Hin|(r' & Hr' & Heq)].
    + apply elem_of_cons in Hin as [Heq|Hin]; [|by left].
      right. exists x. split; [apply list_elem_of_here|done].
    + right. exists r'. split; [by apply list_elem_of_further|done].
Qed.

(** *** The normalized table, row by row *)

Lemma normalize_reference_eq now (reference : list ref_row) :
  normalize_reference now reference
  = clean_numbers
      <$> drop_duplicates (clean_keys <$> effective_reference now reference).
Proof.
  unfold normalize_reference. cbv zeta.
  by rewrite <- !list_fmap_compose.
Qed.

End ReferenceFacts.

(** ** The priced reference table *)

Section PricedReferenceFacts.
Import PyStr Series Tables Resolver Reference Propagator Spec.
Context `{Runtime}.

Lemma normalize_reference_numeric now (reference : list ref_row) :
  Forall (λ r, Gold_Market r = VNa ∨ ∃ v, Gold_Market r = VNum v)
    (normalize_reference now reference).
Proof.
  rewrite normalize_reference_eq, Forall_fmap.
  apply Forall_forall. intros k _. simpl. apply to_numeric_cases.
Qed.

(** The pipeline always gets a priced reference table: each normalized
    row with the multiplier the resolver gives it, then its price. *)
Lemma priced_reference_spec now (reference : list ref_row) (gold silver : Q) :
  ∃ priced,
    priced_reference now reference gold silver = Some priced
    ∧ Forall2
        (λ r p, ∃ m, lookup_multiplier_by_metal
                       (sort_values (gold_table gold))
                       (sort_values (silver_table silver)) r = Some m
                     ∧ p = price_row (set_Multiplier m r))
        (normalize_reference now reference) priced.
Proof.
  destruct (lookup_multiplier_total (normalize_reference now reference)
              gold silver (normalize_reference_numeric now reference))
    as (resolved & Hres & Hall).
  exists (price_row <$> resolved). split.
  - unfold priced_reference. cbv zeta. by rewrite Hres.
  - apply Forall2_fmap_r. eapply Forall2_impl; [exact Hall|].
    intros r r' (m & -> & Hm). by exists m.
Qed.

Lemma build_price_lookup_key (rows : list ref_row) k p :
  build_price_lookup rows !! k = Some p →
  ∃ r, r ∈ rows ∧ Stock_ID r = k ∧ New_Price r = p.
Proof.
  unfold build_price_lookup.
  assert (∀ m : gmap value value,
    foldl
      (λ price_lookup row,
         let stock_id := Stock_ID row in
         let new_price := New_Price row in
         if bool_decide (stock_id ≠ VStr []) && notna stock_id
            && notna new_price
            && bool_decide (py_str stock_id ≠ py "nan")
         then <[stock_id := new_price]> price_lookup
         else price_lookup)
      m rows !! k = Some p →
    m !! k = Some p ∨ ∃ r, r ∈ rows ∧ Stock_ID r = k ∧ New_Price r = p)
    as Hgen.
  { induction rows as [|x rows IH]; intros m; simpl; [by left|].
    intros Hk. apply IH in Hk as [Hk|(r & Hr & Hkey & Hp)].
    - destruct (bool_decide (Stock_ID x ≠ VStr []) && notna (Stock_ID x)
                && notna (New_Price x)
                && bool_decide (py_str (Stock_ID x) ≠ py "nan"));
        [|by left].
      destruct (decide (Stock_ID x = k)) as [<-|Hne].
      + rewrite lookup_insert_eq in Hk. injection Hk as <-.
        right. exists x. split; [apply list_elem_of_here|done].
      + rewrite lookup_insert_ne in Hk by done. by left.
    - right. exists r. split; [by apply list_elem_of_further|done]. }
  intros Hk. apply Hgen in Hk as [Hk|Hk]; [|done].
  by rewrite lookup_empty in Hk.
Qed.

Lemma price_mapping_key now (reference : list ref_row) gold silver priced k p :
  priced_reference now reference gold silver = Some priced →
  price_mapping priced !! k = Some p →
  ∃ r', r' ∈ normalize_reference now reference
        ∧ k = clean_key (Stock_ID r').
Proof.
  intros Hp Hk.
  destruct (priced_reference_spec now reference gold silver)
    as (priced' & Hp' & Hall).
  rewrite Hp in Hp'. injection Hp' as <-.
  unfold price_mapping in Hk.
  apply build_price_lookup_key in Hk as (c & Hc & Hkey & _).
  apply list_elem_of_fmap in Hc as (q & -> & Hq).
  simpl in Hkey.
  apply list_elem_of_lookup in Hq as [i Hq].
  destruct (Forall2_lookup_r _ _ _ _ _ Hall Hq) as (r' & Hr' & m & _ & ->).
  exists r'. split; [by eapply list_elem_of_lookup_2|]. by rewrite <- Hkey.
Qed.

End PricedReferenceFacts.

Section ReferenceClaims.
Import PyStr Series Reference Propagator Spec.
Context `{Runtime}.

Lemma elem_of_normalize_reference now (reference : list ref_row) r' :
  r' ∈ normalize_reference now reference →
  ∃ r, r ∈ reference ∧ r' = normalize_row r
       ∧ on_or_before (Max_Date r') (timestamp_normalize now)
       ∧ clean_keys (with_max_date r)
         ∈ drop_duplicates (clean_keys <$> effective_reference now reference).
Proof.
  rewrite normalize_reference_eq.
  intros (k & -> & Hk)%list_elem_of_fmap.
  pose proof Hk as Hk'.
  apply drop_duplicates_from_sublist in Hk.
  apply list_elem_of_fmap in Hk as (e & -> & He).
  apply elem_of_effective_reference in He as [He Hd].
  apply list_elem_of_fmap in He as (r & -> & Hr).
  exists r. by repeat split.
Qed.

(** C3, amended. The future-date filter keeps exactly the rows whose
    Max Date is there and not after midnight of the processing day
    ([pd.Timestamp.today().normalize()]).  Every row of the normalized
    reference table comes from such a row; every such row is kept, up to
    the later removal of duplicate Stock IDs; a row whose Max Date is
    missing or after that midnight is not kept; and every key of the
    price lookup mapping is the cleaned Stock ID of a kept row. *)
Theorem future_date_filter now (reference : list ref_row) :
  let today := timestamp_normalize now in
  (∀ r, r ∈ effective_reference now reference
        ↔ r ∈ with_max_date <$> reference
          ∧ on_or_before (Max_Date r) today)
  ∧ (∀ r', r' ∈ normalize_reference now reference →
       ∃ r, r ∈ reference ∧ r' = normalize_row r
            ∧ on_or_before (Max_Date (with_max_date r)) today)
  ∧ (∀ r, r ∈ reference →
       on_or_before (Max_Date (with_max_date r)) today →
       ∃ r', r' ∈ normalize_reference now reference
             ∧ Stock_ID r' = clean_stock_id (Stock_ID r))
  ∧ (∀ r, r ∈ reference →
       ¬ on_or_before (Max_Date (with_max_date r)) today →
       with_max_date r ∉ effective_reference now reference)
  ∧ (∀ gold_price silver_price priced k p,
       priced_reference now reference gold_price silver_price = Some priced →
       price_mapping priced !! k = Some p →
       ∃ r, r ∈ reference
            ∧ on_or_before (Max_Date (with_max_date r)) today
            ∧ k = clean_key (clean_stock_id (Stock_ID r))).
Proof.
  intros today. split; [|split; [|split; [|split]]].
  - apply elem_of_effective_reference.
  - intros r' Hr'.
    apply elem_of_normalize_reference in Hr' as (r & Hr & -> & Hd & _).
    exists r. by repeat split.
  - intros r Hr Hd.
    assert (clean_keys (with_max_date r)
            ∈ clean_keys <$> effective_reference now reference) as Hin.
    { apply list_elem_of_fmap. exists (with_max_date r). split; [done|].
      apply elem_of_effective_reference. split; [|done].
      apply list_elem_of_fmap. by exists r. }
    apply (drop_duplicates_from_keys []) in Hin
      as [Hin|(k & Hk & Heq)]; [by apply elem_of_nil in Hin|].
    exists (clean_numbers k). split.
    + rewrite normalize_reference_eq. apply list_elem_of_fmap. by exists k.
    + simpl. by rewrite Heq.
  - intros r Hr Hd Hin.
    apply elem_of_effective_reference in Hin as [_ Hd']. by apply Hd.
  - intros gold_price silver_price priced k p Hp Hk.
    destruct (price_mapping_key _ _ _ _ _ _ _ Hp Hk) as (r' & Hr' & ->).
    apply elem_of_normalize_reference in Hr' as (r & Hr & -> & Hd & _).
    exists r. by repeat split.
Qed.


End ReferenceClaims.

Lemma future_date_filter_witness :
  ∃ r', r' ∈ Reference.normalize_reference (Examples.midnight 10)
               Examples.raw_reference
        ∧ Stock_ID r' = VStr (PyStr.py "ABC1").
Proof.
  destruct (future_date_filter (Examples.midnight 10) Examples.raw_reference)
    as (_ & _ & Hkept & _ & _).
  apply (Hkept (Sample.raw_row (VStr (PyStr.py "ABC1")) (VStr (PyStr.py "SS"))
                  (VNum 10) (VStr (PyStr.py "25")) (Examples.date 3) VNa VNa)).
  - apply list_elem_of_here.
  - exists (Examples.midnight 3). split; [reflexivity|]. by vm_compute.
Defined.

(** C3, as stated, fails: at 15:00 of day 10 a row stamped 10:00 of the
    same day has its Max Date before the moment of processing, and on the
    processing day, yet it is not kept; the row of day 3 beside it is. *)
Lemma future_date_filter_counterexample :
  let now := (Examples.midnight 10 + 15 * 3600 * 10 ^ 9)%Z in
  let stamp := (Examples.midnight 10 + 10 * 3600 * 10 ^ 9)%Z in
  let row := Sample.raw_row (VStr (PyStr.py "ABC1")) (VStr (PyStr.py "SS"))
               (VNum 10) (VStr (PyStr.py "25")) (VNum (inject_Z stamp))
               VNa VNa in
  let older := Sample.raw_row (VStr (PyStr.py "DEF2")) (VStr (PyStr.py "SS"))
                 (VNum 10) (VStr (PyStr.py "25")) (Examples.date 3)
                 VNa VNa in
  Max_Date (Reference.with_max_date row) = Some stamp
  ∧ (stamp ≤ now)%Z
  ∧ Stock_ID <$> Reference.normalize_reference now [row; older]
    = [VStr (PyStr.py "DEF2")].
Proof. by vm_compute. Qed.



(** ** Prices *)

Section PriceFacts.
Import PyStr Series Frame Tables Resolver Reference Propagator Pipeline Spec.
Context `{Runtime}.



Lemma clean_price_per_unit_number (v : value) :
  ∃ q, clean_price_per_unit v = VNum q.
Proof.
  unfold clean_price_per_unit.
  destruct (to_numeric_cases v) as [->|[q ->]]; simpl; eauto.
Qed.

Lemma price_row_new_price (r : ref_row) (m : value) ppu :
  Price_Per_Unit r = VNum ppu →
  Multiplier (price_row (set_Multiplier m r)) = VNum (multiplier_or_one m)
  ∧ New_Price (price_row (set_Multiplier m r))
    = VNum (round2 (ppu * multiplier_or_one m)).
Proof.
  intros Hppu. unfold price_row, multiplier_or_one. simpl. rewrite Hppu.
  destruct (to_numeric_cases m) as [->|[q ->]]; by simpl.
Qed.




End PriceFacts.

Section PriceClaims.
Import PyStr Series Frame Tables Resolver Reference Propagator Pipeline Spec.
Context `{Runtime}.


End PriceClaims.


(** The scenario of the specification: the silver item ABC1 at 10.00 with
    the multiplier 1 gives the price 10.00 on the row of SKU ABC1, the two
    other rows keep their prices, 3.456 rounded to 3.46.  A price half way
    between two hundredths goes to the even one. *)
Example prices_of_upload :
  (λ r, Frame.get_col Propagator.variant_price r.1)
    <$> Pipeline.process_precious_metals_data (Examples.midnight 10)
          Examples.raw_reference Examples.upload 2000 25
  = Some (Some (Column false [VNum 10.00; VNum 2.00; VNum 3.46])).
Proof. by vm_compute. Qed.

Example round2_half_even :
  Series.round2 0.125 = 0.12%Q ∧ Series.round2 0.135 = 0.14%Q.
Proof. by vm_compute. Qed.

(** ** The clock *)

Section ClockFacts.
Import Reference Pipeline.
Context `{Runtime}.




End ClockFacts.



(** ** The tiers of the multiplier tables *)

Section TierFacts.
Import PyStr Series Tables Resolver Spec Behaviour.

Lemma find_multiplier_above_elem (val : value) (t : list factor_row) m :
  find_multiplier_above val t = Some m →
  m = VNa ∨ ∃ r, r ∈ t ∧ m = VNum (factor r).
Proof.
  unfold find_multiplier_above.
  destruct (isna val); [intros [= <-]; by left|].
  destruct (as_number val) as [v|]; [|done]. cbn [mbind option_bind].
  destruct (filter (λ r, (v < breakpoint r)%Q) t) as [|r rs] eqn:Hf.
  - destruct (last t) as [r|] eqn:Hl; [|done].
    intros [= <-]. right. exists r. split; [|done].
    apply last_Some in Hl as [l' ->]. set_solver.
  - intros [= <-]. right. exists r. split; [|done].
    assert (r ∈ filter (λ r, (v < breakpoint r)%Q) t) as Hr
      by (rewrite Hf; apply list_elem_of_here).
    by apply list_elem_of_filter in Hr as [_ Hr].
Qed.

Lemma gold_table_factors (spot : Q) :
  Forall (λ r, (1 <= factor r)%Q ∧ (factor r <= 2)%Q) (gold_table spot).
Proof. unfold gold_table. simpl. repeat constructor; by vm_compute. Qed.

Lemma silver_table_factors (spot : Q) :
  Forall (λ r, (1 <= factor r)%Q ∧ (factor r <= 2)%Q) (silver_table spot).
Proof. unfold silver_table. simpl. repeat constructor; by vm_compute. Qed.

Lemma gold_table_tiered (spot : Q) : (0 < spot)%Q → tiered (gold_table spot).
Proof.
  intros Hs. unfold tiered, gold_table. simpl.
  repeat (apply SSorted_cons || apply SSorted_nil || apply Forall_cons
          || apply Forall_nil || split);
    simpl; first [by apply div_lt_div|by vm_compute].
Qed.

Lemma silver_table_tiered (spot : Q) :
  (0 < spot)%Q → tiered (silver_table spot).
Proof.
  intros Hs. unfold tiered, silver_table. simpl.
  repeat (apply SSorted_cons || apply SSorted_nil || apply Forall_cons
          || apply Forall_nil || split);
    simpl; first [by apply div_lt_div|by vm_compute].
Qed.

Lemma tiered_increasing (t : list factor_row) : tiered t → increasing t.
Proof.
  unfold tiered, increasing. induction 1 as [|x t Ht IH Hx]; constructor;
    [done|]. eapply Forall_impl; [exact Hx|]. by intros r [? _].
Qed.

Lemma last_elem_of {A} (l : list A) x : last l = Some x → x ∈ l.
Proof. intros [l' ->]%last_Some. set_solver. Qed.

(** On a tiered table a greater value never gets a greater factor. *)
Lemma find_multiplier_above_antitone (t : list factor_row) (v1 v2 f1 f2 : Q) :
  tiered t → (v1 <= v2)%Q →
  find_multiplier_above (VNum v1) t = Some (VNum f1) →
  find_multiplier_above (VNum v2) t = Some (VNum f2) →
  (f2 <= f1)%Q.
Proof.
  intros Ht Hv. unfold find_multiplier_above. simpl.
  induction Ht as [|x t Ht IH Hx]; [done|].
  rewrite !filter_cons.
  destruct (decide (v2 < breakpoint x)%Q) as [H2|H2].
  { rewrite decide_True by (eapply Qle_lt_trans; eauto).
    intros [= <-] [= <-]. apply Qle_refl. }
  assert (∀ v f, match filter (λ r, (v < breakpoint r)%Q) t with
                 | [] => (λ r, VNum (factor r)) <$> last (x :: t)
                 | r :: _ => Some (VNum (factor r))
                 end = Some (VNum f) → (f <= factor x)%Q) as Hbelow.
  { intros v f.
    destruct (filter (λ r, (v < breakpoint r)%Q) t) as [|r rs] eqn:Hf.
    - destruct (last (x :: t)) as [r|] eqn:Hl; [|done].
      intros [= <-]. apply last_elem_of in Hl.
      apply elem_of_cons in Hl as [->|Hl]; [apply Qle_refl|].
      rewrite Forall_forall in Hx. by apply Hx.
    - intros [= <-].
      assert (r ∈ filter (λ r, (v < breakpoint r)%Q) t) as Hr
        by (rewrite Hf; apply list_elem_of_here).
      apply list_elem_of_filter in Hr as [_ Hr].
      rewrite Forall_forall in Hx. by apply Hx. }
  destruct (decide (v1 < breakpoint x)%Q) as [H1|H1].
  { intros [= <-]. apply Hbelow. }
  destruct t as [|y t'].
  { simpl. intros [= <-] [= <-]. apply Qle_refl. }
  change (last (x :: y :: t')) with (last (y :: t')). apply IH.
Qed.





Lemma resolved_in_range (gold_price silver_price : Q) (row : ref_row) m :
  lookup_multiplier_by_metal (sort_values (gold_table gold_price))
    (sort_values (silver_table silver_price)) row = Some m →
  in_range m.
Proof.
  unfold lookup_multiplier_by_metal. cbv zeta.
  destruct (isna (Gold_Market row) || isna (Metal row));
    [intros [= <-]; by left|].
  assert (∀ t t' : list factor_row,
            t ≡ₚ t' →
            Forall (λ r, (1 <= factor r)%Q ∧ (factor r <= 2)%Q) t' →
            find_multiplier_above (Gold_Market row) t = Some m →
            in_range m) as Hin.
  { intros t t' Hp Hall Hf.
    apply find_multiplier_above_elem in Hf as [->|(r & Hr & ->)];
      [by left|].
    right. exists (factor r). split; [done|].
    rewrite Hp in Hr. rewrite Forall_forall in Hall. by apply Hall. }
  destruct (decide (Metal row = VStr (py "S/S"))).
  - apply (Hin _ _ (sort_values_perm _) (silver_table_factors _)).
  - apply (Hin _ _ (sort_values_perm _) (gold_table_factors _)).
Qed.

End TierFacts.

Section TierProperties.
Import PyStr Series Tables Resolver Spec Behaviour.

(** Whatever the spot prices, a multiplier that the resolver gives is
    missing or one of the factors of the tables, so from 1 to 2. *)
Theorem multiplier_range (gold_price silver_price : Q) (row : ref_row) m :
  lookup_multiplier_by_metal (sort_values (gold_table gold_price))
    (sort_values (silver_table silver_price)) row = Some m →
  in_range m.
Proof. apply resolved_in_range. Qed.

(** With positive spot prices, of two rows of the same kind of metal the
    one with the greater Gold Market value never gets the greater
    multiplier. *)
Theorem multiplier_antitone (gold_price silver_price : Q)
    (row1 row2 : ref_row) (v1 v2 f1 f2 : Q) :
  (0 < gold_price)%Q → (0 < silver_price)%Q →
  is_silver row1 = is_silver row2 →
  Gold_Market row1 = VNum v1 → Gold_Market row2 = VNum v2 →
  (v1 <= v2)%Q →
  lookup_multiplier_by_metal (sort_values (gold_table gold_price))
    (sort_values (silver_table silver_price)) row1 = Some (VNum f1) →
  lookup_multiplier_by_metal (sort_values (gold_table gold_price))
    (sort_values (silver_table silver_price)) row2 = Some (VNum f2) →
  (f2 <= f1)%Q.
Proof.
  intros Hg Hs Hkind Hv1 Hv2 Hle.
  pose proof (gold_table_tiered gold_price Hg) as Htg.
  pose proof (silver_table_tiered silver_price Hs) as Hts.
  rewrite !increasing_sort_values_id by by apply tiered_increasing.
  unfold lookup_multiplier_by_metal. cbv zeta. rewrite Hv1, Hv2.
  cbn [isna orb].
  destruct (isna (Metal row1)); [done|].
  destruct (isna (Metal row2)); [done|].
  unfold is_silver in Hkind.
  destruct (decide (Metal row1 = VStr (py "S/S"))) as [Hm1|Hm1];
    destruct (decide (Metal row2 = VStr (py "S/S"))) as [Hm2|Hm2].
  - by apply find_multiplier_above_antitone.
  - rewrite bool_decide_eq_true_2, bool_decide_eq_false_2 in Hkind; done.
  - rewrite bool_decide_eq_false_2, bool_decide_eq_true_2 in Hkind; done.
  - by apply find_multiplier_above_antitone.
Qed.


End TierProperties.

Lemma multiplier_range_witness :
  Behaviour.in_range (VNum 1).
Proof.
  apply (multiplier_range 2000 25 (Examples.priced (PyStr.py "ABC1") 10)).
  by vm_compute.
Defined.

Lemma multiplier_antitone_witness : (1 <= 2)%Q.
Proof.
  apply (multiplier_antitone 2000 25
           (set_Gold_Market (VNum 10) (Examples.priced (PyStr.py "ABC1") 10))
           (Examples.priced (PyStr.py "DEF2") 10)
           10 25 2 1); by vm_compute.
Defined.


(** ** The cells of the normalized reference table *)

Section CleaningFacts.
Import PyStr Series Reference Spec Behaviour.
Context `{Runtime}.

Lemma without_spaces_idemp (s : pystr) :
  without_spaces (without_spaces s) = without_spaces s.
Proof.
  unfold without_spaces. induction s as [|c s IH]; [done|].
  rewrite filter_cons. destruct (decide (c ≠ 32%N)); [|done].
  by rewrite filter_cons, decide_True, IH.
Qed.

Lemma without_spaces_no_space (s : pystr) : 32%N ∉ without_spaces s.
Proof. unfold without_spaces. rewrite list_elem_of_filter. naive_solver. Qed.

Lemma clean_stock_id_text (v : value) :
  clean_stock_id v = VStr (without_spaces (text_of v)).
Proof.
  unfold clean_stock_id, astype_str, text_of, without_spaces. simpl.
  f_equal. apply (replace_single 32).
Qed.

Lemma replace_from_nil_inv (h : N) (t new s : pystr) :
  new ≠ [] → replace_from (h :: t) new 0 s = [] → s = [].
Proof.
  intros Hnew. destruct s as [|c s]; [done|]. cbn [replace_from].
  case_bool_decide; [|done]. by destruct new.
Qed.

(** The only texts that [replace("SS", "S/S")] turns into 'S/S' are 'SS'
    and 'S/S'. *)
Lemma replace_silver (s : pystr) :
  replace (py "SS") (py "S/S") s = py "S/S"
  ↔ s = py "SS" ∨ s = py "S/S".
Proof.
  split; [|by intros [->| ->]; vm_compute].
  change (replace (py "SS") (py "S/S") s)
    with (replace_from [83; 83]%N [83; 47; 83]%N 0 s).
  change (py "S/S") with [83; 47; 83]%N. change (py "SS") with [83; 83]%N.
  assert ([83; 47; 83]%N ≠ []) as Hnew by done.
  destruct s as [|a s]; [done|]. cbn [replace_from].
  case_bool_decide as Hp.
  - destruct Hp as [k Hk]. injection Hk as -> ->.
    cbn [length Nat.sub replace_from app].
    intros Heq. injection Heq as Heq.
    apply replace_from_nil_inv in Heq as ->; [by left|done].
  - intros Heq. injection Heq as -> Heq.
    destruct s as [|b s]; [done|]. cbn [replace_from] in Heq.
    case_bool_decide as Hp2; [done|]. injection Heq as -> Heq.
    destruct s as [|c s]; [done|]. cbn [replace_from] in Heq.
    case_bool_decide as Hp3; [done|]. injection Heq as -> Heq.
    apply replace_from_nil_inv in Heq as ->; [by right|done].
Qed.

Lemma replace_silver_no_space (s : pystr) :
  32%N ∉ s → 32%N ∉ replace (py "SS") (py "S/S") s.
Proof.
  change (replace (py "SS") (py "S/S") s)
    with (replace_from [83; 83]%N [83; 47; 83]%N 0 s).
  assert (∀ k, 32%N ∉ s →
               32%N ∉ replace_from [83; 83]%N [83; 47; 83]%N k s) as Hk;
    [|apply Hk].
  induction s as [|c s IH]; intros k Hs; [done|].
  apply not_elem_of_cons in Hs as [Hc Hs].
  cbn [replace_from]. destruct k as [|k]; [|by apply IH].
  case_bool_decide.
  - rewrite elem_of_app. intros [Hin|Hin]; [set_solver|by apply IH in Hin].
  - rewrite elem_of_cons. intros [?|Hin]; [done|by apply IH in Hin].
Qed.

Lemma max_skipna_None (a b : option Z) :
  max_skipna a b = None ↔ a = None ∧ b = None.
Proof. destruct a, b; simpl; naive_solver. Qed.

Lemma max_skipna_Some (a b : option Z) d :
  max_skipna a b = Some d →
  (a = Some d ∨ b = Some d)
  ∧ (∀ x, a = Some x → (x ≤ d)%Z) ∧ (∀ x, b = Some x → (x ≤ d)%Z).
Proof.
  destruct a as [x|], b as [y|]; simpl; intros [= <-].
  - split; [|split; intros ? [= ->]; lia].
    destruct (Z.max_spec x y) as [[_ ->]|[_ ->]]; auto.
  - split; [by left|]. split; [intros ? [= ->]; lia|done].
  - split; [by right|]. split; [done|intros ? [= ->]; lia].
Qed.

Lemma clean_metal_text (v : value) :
  clean_metal v
  = VStr (replace (py "SS") (py "S/S") (without_spaces (text_of v))).
Proof.
  unfold clean_metal, astype_str, text_of, without_spaces. simpl.
  do 2 f_equal. apply (replace_single 32).
Qed.

Lemma drop_duplicates_from_length seen (rows : list ref_row) :
  length (drop_duplicates_from seen rows) ≤ length rows.
Proof.
  revert seen. induction rows as [|x rows IH]; intros seen; simpl; [done|].
  destruct (decide (Stock_ID x ∈ seen)).
  - specialize (IH seen). lia.
  - simpl. specialize (IH (Stock_ID x :: seen)). lia.
Qed.

Lemma normalize_reference_length now (reference : list ref_row) :
  length (normalize_reference now reference) ≤ length reference.
Proof.
  rewrite normalize_reference_eq, length_fmap.
  etrans; [apply drop_duplicates_from_length|].
  rewrite length_fmap. unfold effective_reference. cbv zeta.
  etrans; [apply length_filter|].
  unfold dated_reference. cbv zeta. by rewrite sort_by_length, length_fmap.
Qed.

End CleaningFacts.

Section CleaningProperties.
Import PyStr Series Tables Resolver Reference Spec Behaviour.
Context `{Runtime}.

(** Max Date is missing exactly when the three timestamps of the row are
    missing; otherwise it is one of them, and none of them is later. *)
Theorem max_date_latest (r : ref_row) :
  (Max_Date (with_max_date r) = None ↔ Forall (λ t, t = None) (timestamps r))
  ∧ ∀ d, Max_Date (with_max_date r) = Some d →
      Some d ∈ timestamps r
      ∧ Forall (λ t, ∀ x, t = Some x → (x ≤ d)%Z) (timestamps r).
Proof.
  unfold with_max_date, timestamps. cbn [Max_Date set_Max_Date].
  set (a := datetime_of (Date_Created r)).
  set (b := datetime_of (Date_Last_Price_Change r)).
  set (c := datetime_of (Last_Stocked r)).
  split.
  - rewrite !Forall_cons, !max_skipna_None.
    pose proof (Forall_nil_2 (λ t : option Z, t = None)). tauto.
  - intros d Hd.
    apply max_skipna_Some in Hd as (Hd & Hab & Hc).
    split.
    + rewrite !elem_of_cons. destruct Hd as [Hd|Hd]; [|by auto].
      apply max_skipna_Some in Hd as ([Hd|Hd] & _ & _); auto.
    + repeat apply Forall_cons_2; [| |done|apply Forall_nil_2].
      * intros x Hx. destruct (max_skipna a b) as [m|] eqn:Hm.
        -- apply max_skipna_Some in Hm as (_ & Ha & _).
           specialize (Ha x Hx). specialize (Hab m eq_refl). lia.
        -- apply max_skipna_None in Hm as [Ha _]. congruence.
      * intros x Hx. destruct (max_skipna a b) as [m|] eqn:Hm.
        -- apply max_skipna_Some in Hm as (_ & _ & Hb).
           specialize (Hb x Hx). specialize (Hab m eq_refl). lia.
        -- apply max_skipna_None in Hm as [_ Hb]. congruence.
Qed.

(** Stock IDs are compared without their spaces: the cleaned Stock ID is
    the text of the cell, the empty text for a missing cell, with every
    space removed, and cleaning it again changes nothing. *)
Theorem clean_stock_id_spaces (v : value) :
  clean_stock_id v = VStr (without_spaces (text_of v))
  ∧ clean_stock_id (clean_stock_id v) = clean_stock_id v.
Proof.
  split; [apply clean_stock_id_text|].
  rewrite !clean_stock_id_text. unfold text_of at 1. simpl.
  by rewrite without_spaces_idemp.
Qed.

(** A normalized row is looked up in the silver table exactly when its
    Metal, spaces removed, reads 'SS' or 'S/S', and in the gold table
    otherwise, a missing Metal included. *)
Theorem silver_routing (gold_factor silver_factor : list factor_row)
    (r : ref_row) :
  let metal := without_spaces (text_of (Metal r)) in
  lookup_multiplier_by_metal gold_factor silver_factor (normalize_row r)
  = find_multiplier_above (Gold_Market (normalize_row r))
      (if decide (metal = py "SS" ∨ metal = py "S/S") then silver_factor
       else gold_factor).
Proof.
  intros metal. unfold lookup_multiplier_by_metal. cbv zeta.
  assert (Metal (normalize_row r)
          = VStr (replace (py "SS") (py "S/S") metal)) as ->
    by apply clean_metal_text.
  cbn [isna]. rewrite orb_false_r.
  assert (find_multiplier_above (Gold_Market (normalize_row r))
            (if decide (metal = py "SS" ∨ metal = py "S/S")
             then silver_factor else gold_factor)
          = if decide (VStr (replace (py "SS") (py "S/S") metal)
                       = VStr (py "S/S"))
            then find_multiplier_above (Gold_Market (normalize_row r))
                   silver_factor
            else find_multiplier_above (Gold_Market (normalize_row r))
                   gold_factor) as ->.
  { destruct (decide (metal = py "SS" ∨ metal = py "S/S")) as [Hm|Hm].
    - apply replace_silver in Hm. by rewrite decide_True by by rewrite Hm.
    - rewrite decide_False; [done|].
      intros [= Heq]. by apply Hm, replace_silver. }
  destruct (isna (Gold_Market (normalize_row r))) eqn:Hna; [|done].
  unfold find_multiplier_above. rewrite Hna. by destruct (decide _).
Qed.

(** Every row of the normalized reference table has a Stock ID and a
    Metal that are texts without spaces, a Price Per Unit that is a
    number, a Gold Market that is a number or missing, and a Max Date not
    after the midnight of the processing day; and the table has no more
    rows than the raw one. *)
Theorem normalized_rows_typed now (reference : list ref_row) :
  Forall (typed_row (timestamp_normalize now))
    (normalize_reference now reference)
  ∧ length (normalize_reference now reference) ≤ length reference.
Proof.
  split; [|apply normalize_reference_length].
  apply Forall_forall. intros r' Hr'.
  apply elem_of_normalize_reference in Hr' as (r & _ & -> & Hd & _).
  unfold typed_row. split; [|split; [|split; [|split]]].
  - exists (without_spaces (text_of (Stock_ID r))).
    split; [apply clean_stock_id_text|apply without_spaces_no_space].
  - eexists. split; [apply clean_metal_text|].
    apply replace_silver_no_space, without_spaces_no_space.
  - apply clean_price_per_unit_number.
  - apply to_numeric_cases.
  - exact Hd.
Qed.

End CleaningProperties.

(** ** Rounding *)

Section RoundingFacts.
Import PyStr Series Tables Resolver Reference Spec Behaviour.
Context `{Runtime}.

Lemma rint_comp (q q' : Q) : (q == q')%Q → rint q = rint q'.
Proof.
  intros Hq. unfold rint. cbv zeta.
  rewrite <- (Qfloor_comp _ _ Hq).
  assert ((q - inject_Z (Qfloor q) ?= 1 # 2)%Q
          = (q' - inject_Z (Qfloor q) ?= 1 # 2)%Q) as ->; [|done].
  apply Qcompare_comp; [|reflexivity].
  apply Qplus_comp; [exact Hq|reflexivity].
Qed.




Lemma round2_comp (q q' : Q) : (q == q')%Q → round2 q = round2 q'.
Proof.
  intros Hq. unfold round2. f_equal. f_equal. apply rint_comp.
  apply Qmult_comp; [exact Hq|reflexivity].
Qed.




End RoundingFacts.

Section RoundingProperties.
Import PyStr Series Frame Tables Resolver Reference Pipeline Spec Behaviour.
Context `{Runtime}.



End RoundingProperties.


(** ** Keys and prices in the propagator *)

Section KeyFacts.
Import PyStr Series Frame Propagator Spec Behaviour.
Context `{Runtime}.

Lemma lstrip_head (s : pystr) c :
  head (lstrip s) = Some c → is_space c = false.
Proof.
  induction s as [|x s IH]; [done|]. simpl.
  destruct (is_space x) eqn:Hx; [done|]. by intros [= <-].
Qed.

Lemma lstrip_id (s : pystr) :
  (∀ c, head s = Some c → is_space c = false) → lstrip s = s.
Proof. destruct s as [|x s]; [done|]. simpl. intros Hx. by rewrite Hx. Qed.

Lemma lstrip_suffix (s : pystr) : lstrip s `suffix_of` s.
Proof.
  induction s as [|x s IH]; [done|]. simpl.
  destruct (is_space x); [by apply suffix_cons_r|done].
Qed.

Lemma strip_idemp (s : pystr) : strip (strip s) = strip s.
Proof.
  unfold strip.
  set (t := lstrip s). set (u := lstrip (reverse t)).
  assert (lstrip (reverse u) = reverse u) as ->.
  { apply lstrip_id. intros c. rewrite head_reverse. intros Hc.
    destruct (lstrip_suffix (reverse t)) as [k Hk]. fold u in Hk.
    assert (last (reverse t) = Some c) as Hl.
    { rewrite Hk. destruct u as [|y u']; [done|].
      by rewrite last_app_cons. }
    rewrite last_reverse in Hl. by apply (lstrip_head s). }
  rewrite reverse_involutive. f_equal.
  apply lstrip_id. apply lstrip_head.
Qed.

Lemma clean_key_cases (v : value) :
  (strip (py_str v) = py "nan" ∧ clean_key v = VStr [])
  ∨ (strip (py_str v) ≠ py "nan" ∧ clean_key v = VStr (strip (py_str v))).
Proof.
  unfold clean_key, astype_str. simpl.
  destruct (decide (VStr (strip (py_str v)) = VStr (py "nan"))) as [Heq|Hne].
  - left. split; [congruence|done].
  - right. split; [congruence|done].
Qed.

Lemma clean_key_text (v : value) :
  ∃ s, clean_key v = VStr s ∧ s ≠ py "nan" ∧ strip s = s.
Proof.
  destruct (clean_key_cases v) as [[_ ->]|[Hne ->]].
  - by exists [].
  - exists (strip (py_str v)). split; [done|]. split; [done|].
    apply strip_idemp.
Qed.

Lemma clean_key_idemp (v : value) : clean_key (clean_key v) = clean_key v.
Proof.
  destruct (clean_key_text v) as (s & Hs & Hnan & Hstrip). rewrite Hs.
  destruct (clean_key_cases (VStr s)) as [[Hn _]|[_ ->]];
    simpl in *; congruence.
Qed.

(** The dictionary after one more row. *)
Lemma build_price_lookup_snoc (rows : list ref_row) (r : ref_row) :
  build_price_lookup (rows ++ [r])
  = if bool_decide (Stock_ID r ≠ VStr []) && notna (Stock_ID r)
       && notna (New_Price r)
       && bool_decide (py_str (Stock_ID r) ≠ py "nan")
    then <[Stock_ID r := New_Price r]> (build_price_lookup rows)
    else build_price_lookup rows.
Proof. unfold build_price_lookup. by rewrite foldl_snoc. Qed.

Lemma cells_lookup_split (l : list value) idx x :
  l !! idx = Some x →
  take (S idx) l = take idx l ++ [x] ∧ drop idx l = x :: drop (S idx) l.
Proof.
  intros Hx. split; [by apply take_S_r|].
  by rewrite (drop_S _ x).
Qed.

(** The prices after the loop of the propagator: up to [idx] as they
    were, from [idx] on as the SKUs decide. *)
Lemma propagate_prices lk skus : ∀ idx result n r' n' c,
  propagate lk skus idx result n = (r', n') →
  get_col variant_price result = Some c →
  length (cells c) = idx + length skus →
  get_col variant_price r'
  = Some (Column (dtype_object c)
            (take idx (cells c)
             ++ zip_with (propagated lk) skus (drop idx (cells c)))).
Proof.
  induction skus as [|v skus IH]; intros idx result n r' n' c Hp Hc Hlen.
  { simpl in Hp. injection Hp as <- <-. simpl in Hlen.
    rewrite take_ge by lia. rewrite app_nil_r, Hc. by destruct c. }
  simpl in Hlen.
  destruct (lookup_lt_is_Some_2 (cells c) idx) as [x Hx]; [lia|].
  destruct (cells_lookup_split _ _ _ Hx) as [Htake Hdrop].
  assert (take idx (cells c)
          ++ zip_with (propagated lk) (v :: skus) (drop idx (cells c))
          = (take idx (cells c) ++ [propagated lk v x])
            ++ zip_with (propagated lk) skus (drop (S idx) (cells c)))
    as ->.
  { rewrite Hdrop. simpl. by rewrite <- app_assoc. }
  cbn [propagate] in Hp. fold (is_blank v) in Hp. unfold propagated.
  destruct (is_blank v) eqn:Hb.
  { rewrite (IH _ _ _ _ _ c Hp Hc) by lia. by rewrite Htake. }
  destruct (lk !! v) as [p|] eqn:Hv.
  - destruct (notna p) eqn:Hna.
    + rewrite (IH _ _ _ _ _
                 (Column (dtype_object c) (<[idx:=p]> (cells c))) Hp).
      * cbn [dtype_object cells].
        rewrite drop_insert_lt by lia.
        rewrite (take_S_r _ _ p) by (apply list_lookup_insert_eq; lia).
        by rewrite take_insert_ge.
      * unfold loc_set. rewrite Hc. apply get_col_set_col_eq.
      * cbn [cells]. rewrite length_insert. lia.
    + rewrite (IH _ _ _ _ _ c Hp Hc) by lia. by rewrite Htake.
  - rewrite (IH _ _ _ _ _ c Hp Hc) by lia. by rewrite Htake.
Qed.

End KeyFacts.

Section KeyProperties.
Import PyStr Series Frame Propagator Spec Behaviour.
Context `{Runtime}.

(** The cleaned key of a cell is a text without blanks around it and
    never the text 'nan'; it counts as blank exactly when the text of the
    cell, stripped, is empty or 'nan', which is the case of a missing
    cell; and cleaning a cleaned key changes nothing. *)
Theorem clean_key_blank (v : value) :
  (∃ s, clean_key v = VStr s ∧ s ≠ py "nan" ∧ strip s = s)
  ∧ (is_blank (clean_key v) = true
     ↔ strip (py_str v) = [] ∨ strip (py_str v) = py "nan")
  ∧ is_blank (clean_key VNa) = true
  ∧ clean_key (clean_key v) = clean_key v.
Proof.
  split; [apply clean_key_text|]. split; [|split].
  - unfold is_blank.
    destruct (clean_key_cases v) as [[Hn ->]|[Hn ->]]; cbn [isna];
      rewrite orb_false_r, bool_decide_eq_true.
    + split; [by right|done].
    + split; [intros [= Heq]; by left|].
      intros [Heq|Heq]; [by rewrite Heq|done].
  - by vm_compute.
  - apply clean_key_idemp.
Qed.

(** The price mapping sends a key to the New Price of the last reference
    row whose cleaned Stock ID is that key, among the rows with a Stock
    ID that is not blank and a New Price that is there; a key of no such
    row has no entry. *)
Theorem price_mapping_last (reference : list ref_row) (k : value) :
  price_mapping reference !! k
  = New_Price
      <$> last (filter (λ r, usable_entry r = true
                             ∧ clean_key (Stock_ID r) = k) reference).
Proof.
  unfold price_mapping.
  induction reference as [|r reference IH] using rev_ind; [done|].
  rewrite fmap_app, filter_app. cbn [fmap list_fmap].
  rewrite build_price_lookup_snoc. cbn [Stock_ID New_Price set_Stock_ID].
  destruct (clean_key_text (Stock_ID r)) as (s & Hs & Hnan & _).
  assert (notna (clean_key (Stock_ID r)) = true) as -> by by rewrite Hs.
  assert (bool_decide (py_str (clean_key (Stock_ID r)) ≠ py "nan") = true)
    as -> by (rewrite Hs; by apply bool_decide_eq_true_2).
  rewrite andb_true_r.
  assert (bool_decide (clean_key (Stock_ID r) ≠ VStr []) && true
          && notna (New_Price r) = usable_entry r) as ->
    by (unfold usable_entry; by rewrite andb_true_r).
  rewrite filter_cons, filter_nil.
  destruct (usable_entry r) eqn:Hu.
  - destruct (decide (clean_key (Stock_ID r) = k)) as [<-|Hne].
    + rewrite lookup_insert_eq, decide_True by done. by rewrite last_snoc.
    + rewrite lookup_insert_ne by done.
      rewrite decide_False by (intros [_ ?]; done).
      by rewrite app_nil_r.
  - rewrite decide_False by (intros [? _]; done). by rewrite app_nil_r.
Qed.

(** On a product table that has the columns "Variant SKU" and "Variant
    Price", the propagator returns the price column with, row by row,
    the mapped price where the cleaned SKU is not blank and is a key of
    the price mapping, and the price the row had everywhere else. *)
Theorem propagated_prices upload reference sku price result n :
  wf upload →
  get_col variant_sku upload = Some sku →
  get_col variant_price upload = Some price →
  update_variant_price_fixed upload reference = Some (result, n) →
  get_col variant_price result
  = Some (Column (dtype_object price)
            (zip_with (propagated (price_mapping reference))
               (clean_key <$> cells sku) (cells price))).
Proof.
  intros Hwf Hsku Hprice Hu.
  destruct (update_variant_price_fixed_spec upload reference sku Hwf Hsku)
    as (result' & n' & Hu' & Hp & _ & _).
  rewrite Hu in Hu'. injection Hu' as <- <-.
  apply (propagate_prices _ _ _ _ _ _ _ price) in Hp.
  - by rewrite take_0, drop_0 in Hp.
  - rewrite get_col_set_col_ne; [done|]. apply variant_sku_ne_price.
  - rewrite length_fmap. simpl.
    rewrite (wf_get_col variant_price price upload) by done.
    by rewrite (wf_get_col variant_sku sku upload).
Qed.

End KeyProperties.

Lemma propagated_prices_witness :
  ∃ result n,
    Propagator.update_variant_price_fixed Examples.upload Examples.reference
    = Some (result, n)
    ∧ Frame.get_col Propagator.variant_price result
      = Some (Column false [VNum 10; VNum 2; VNum 3.456]).
Proof.
  destruct (Propagator.update_variant_price_fixed Examples.upload
              Examples.reference) as [[result n]|] eqn:Hu;
    [|by vm_compute in Hu].
  exists result, n. split; [reflexivity|].
  rewrite (propagated_prices Examples.upload Examples.reference
             Examples.sku_column
             (Column false [VNum 1; VNum 2; VNum 3.456]) result n).
  - by vm_compute.
  - repeat constructor.
  - reflexivity.
  - reflexivity.
  - exact Hu.
Defined.

(** ** The pipeline, end to end *)

Section PipelineFacts.
Import PyStr Series Frame Sanitizer Reference Propagator Pipeline Spec.
Import Behaviour.
Context `{Runtime}.

Lemma names_set_col_new name c (f : frame) :
  get_col name f = None → names (set_col name c f) = names f ++ [name].
Proof.
  unfold names. induction f as [|[n c1] f IH]; cbn [get_col set_col]; [done|].
  destruct (decide (n = name)) as [->|Hn]; [done|].
  intros Hg. rewrite !fmap_cons. cbn [fst]. by rewrite IH.
Qed.

Lemma body_html_ne_price : body_html ≠ variant_price.
Proof. by vm_compute. Qed.

Lemma body_html_ne_sku : body_html ≠ variant_sku.
Proof. by vm_compute. Qed.

(** What lines 194-201 leave: both columns are there, the prices are
    numbers, and nothing else has changed. *)
Lemma ensure_columns_spec (upload : frame) :
  wf upload →
  wf (ensure_columns upload)
  ∧ nrows (ensure_columns upload) = nrows upload
  ∧ names (ensure_columns upload) = output_names upload
  ∧ get_col variant_price (ensure_columns upload)
    = Some (Column false (price_cells upload))
  ∧ (∃ d, get_col variant_sku (ensure_columns upload)
          = Some (Column d (sku_cells upload)))
  ∧ ∀ name, name ≠ variant_price → name ≠ variant_sku →
      get_col name (ensure_columns upload) = get_col name upload.
Proof.
  intros Hwf. unfold ensure_columns, output_names, price_cells, sku_cells.
  set (u := match get_col variant_price upload with
            | Some c => set_col variant_price
                          (Column false (to_numeric <$> cells c)) upload
            | None => set_col variant_price
                        (Column false (replicate (nrows upload) (VNum 0)))
                        upload
            end).
  assert (wf u ∧ nrows u = nrows upload
          ∧ names u = names upload
                      ++ match get_col variant_price upload with
                         | Some _ => []
                         | None => [variant_price]
                         end
          ∧ get_col variant_price u
            = Some (Column false
                      match get_col variant_price upload with
                      | Some c => to_numeric <$> cells c
                      | None => replicate (nrows upload) (VNum 0)
                      end)
          ∧ ∀ name, name ≠ variant_price →
              get_col name u = get_col name upload)
    as (Hwfu & Hnu & Hnames & Hprice & Hother).
  { unfold u. destruct (get_col variant_price upload) as [c|] eqn:Hc.
    - assert (length (cells (Column false (to_numeric <$> cells c)))
              = nrows upload) as Hlen.
      { simpl. rewrite length_fmap. by apply (wf_get_col variant_price). }
      split; [by apply set_col_wf|]. split; [by apply set_col_nrows|].
      split; [by rewrite app_nil_r, (names_set_col _ _ c)|].
      split; [apply get_col_set_col_eq|].
      intros name Hne. by apply get_col_set_col_ne.
    - assert (length (cells (Column false (replicate (nrows upload) (VNum 0))))
              = nrows upload) as Hlen by apply length_replicate.
      split; [by apply set_col_wf|]. split; [by apply set_col_nrows|].
      split; [by apply names_set_col_new|].
      split; [apply get_col_set_col_eq|].
      intros name Hne. by apply get_col_set_col_ne. }
  assert (get_col variant_sku u = get_col variant_sku upload) as Hsku.
  { apply Hother. apply variant_sku_ne_price. }
  rewrite Hsku.
  destruct (get_col variant_sku upload) as [c|] eqn:Hc.
  - rewrite app_nil_r. repeat split; try done.
    + exists (dtype_object c). rewrite Hsku. by destruct c.
    + intros name Hne _. by apply Hother.
  - assert (length (cells (Column true (replicate (nrows u) (VStr []))))
            = nrows u) as Hlen by apply length_replicate.
    split; [by apply set_col_wf|].
    split; [by rewrite set_col_nrows|].
    split; [by rewrite names_set_col_new, Hnames, app_assoc by by rewrite Hsku|].
    split.
    { rewrite get_col_set_col_ne; [done|]. apply variant_sku_ne_price. }
    split.
    { exists true. by rewrite get_col_set_col_eq, Hnu. }
    intros name Hne1 Hne2. rewrite get_col_set_col_ne by done.
    by apply Hother.
Qed.

Lemma sanitize_columns_names (f : frame) :
  names (sanitize_columns f) = names f.
Proof.
  unfold names, sanitize_columns. rewrite <- list_fmap_compose.
  apply list_fmap_ext. intros _ [n c] _. simpl. by destruct (dtype_object c).
Qed.

Lemma sanitize_columns_get_col name (f : frame) :
  get_col name (sanitize_columns f) = sanitized_column <$> get_col name f.
Proof.
  unfold sanitize_columns, sanitized_column.
  induction f as [|[n c] f IH]; [done|].
  rewrite fmap_cons. cbn [fst snd get_col].
  destruct (dtype_object c) eqn:Hd; cbn [get_col];
    destruct (decide (n = name)); simpl; by rewrite ?Hd.
Qed.

Lemma sanitize_columns_nrows (f : frame) :
  nrows (sanitize_columns f) = nrows f.
Proof.
  destruct f as [|[n c] f]; [done|]. unfold sanitize_columns.
  rewrite fmap_cons. cbn [fst snd].
  destruct (dtype_object c); simpl; by rewrite ?length_fmap.
Qed.

Lemma sanitize_columns_wf (f : frame) : wf f → wf (sanitize_columns f).
Proof.
  unfold wf. rewrite sanitize_columns_nrows. intros Hf.
  unfold sanitize_columns. rewrite Forall_fmap.
  eapply Forall_impl; [exact Hf|]. intros [n c] Hc. simpl in *.
  destruct (dtype_object c); simpl; by rewrite ?length_fmap.
Qed.

End PipelineFacts.

Section PipelineSteps.
Import PyStr Series Frame Sanitizer Reference Propagator Pipeline Spec.
Import Behaviour.
Context `{Runtime}.

(** Lines 133-208, on a well-formed product table: the priced reference
    table, and the product table before the sanitizer, column by
    column. *)
Lemma priced_upload_spec now (reference : list ref_row) (upload : frame)
    (gold silver : Q) :
  wf upload →
  ∃ priced pre n,
    priced_reference now reference gold silver = Some priced
    ∧ priced_upload now reference upload gold silver = Some (priced, pre, n)
    ∧ wf pre ∧ nrows pre = nrows upload ∧ names pre = output_names upload
    ∧ (∀ name, name ≠ variant_price → name ≠ variant_sku →
         get_col name pre = get_col name upload)
    ∧ get_col variant_sku pre
      = Some (Column true (clean_key <$> sku_cells upload))
    ∧ get_col variant_price pre
      = Some (Column false
                (round_value
                   <$> (to_numeric
                          <$> zip_with (propagated (price_mapping priced))
                                (clean_key <$> sku_cells upload)
                                (price_cells upload))))
    ∧ skipped_blank_sku n
      = length (filter (λ v, is_blank v = true)
                  (clean_key <$> sku_cells upload))
    ∧ successful_updates n
      = length (filter (λ v, is_blank v = false
                             ∧ is_Some (price_mapping priced !! v))
                  (clean_key <$> sku_cells upload))
    ∧ skipped_no_match n
      = length (filter (λ v, is_blank v = false
                             ∧ price_mapping priced !! v = None)
                  (clean_key <$> sku_cells upload))
    ∧ length (sku_cells upload) = nrows upload.
Proof.
  intros Hwf.
  destruct (priced_reference_spec now reference gold silver)
    as (priced & Hpriced & _).
  destruct (ensure_columns_spec upload Hwf)
    as (Hwfu & Hnu & Hnames & Hprice & [d Hsku] & Hother).
  destruct (update_variant_price_fixed_spec (ensure_columns upload) priced
              _ Hwfu Hsku) as (result & n & Hu & Hp & Hwfs & Hns).
  cbn [cells] in Hp, Hwfs, Hns.
  assert (length (sku_cells upload) = nrows upload) as Hlen.
  { rewrite <- Hnu. by apply (wf_get_col variant_sku (Column d _)). }
  assert (length (price_cells upload) = nrows upload) as Hlenp.
  { rewrite <- Hnu. by apply (wf_get_col variant_price (Column false _)). }
  pose proof Hp as Hprices.
  apply (propagate_prices _ _ _ _ _ _ _ (Column false (price_cells upload)))
    in Hprices.
  2:{ rewrite get_col_set_col_ne; [done|]. apply variant_sku_ne_price. }
  2:{ cbn [cells]. rewrite length_fmap. lia. }
  cbn [cells dtype_object] in Hprices. rewrite take_0, drop_0 in Hprices.
  apply propagate_spec in Hp
    as (Hwfr & Hr & Hg & Hnm & Hb & Hs & Hn);
    [|apply build_price_lookup_notna|done].
  simpl in Hb, Hs, Hn.
  set (prices := zip_with (propagated (price_mapping priced))
                   (clean_key <$> sku_cells upload) (price_cells upload))
    in *.
  assert (length prices = nrows upload) as Hlenprices.
  { unfold prices. rewrite length_zip_with, length_fmap. lia. }
  exists priced,
    (set_col variant_price
       (Column false (round_value <$> (to_numeric <$> prices))) result), n.
  split; [done|]. split.
  { unfold priced_upload. rewrite Hpriced. cbn [mbind option_bind].
    rewrite Hu. cbn [mbind option_bind]. unfold round_variant_price.
    rewrite Hprices. done. }
  assert (length (cells (Column false
                           (round_value <$> (to_numeric <$> prices))))
          = nrows result) as Hlenr.
  { cbn [cells]. rewrite !length_fmap. lia. }
  split; [by apply set_col_wf|].
  split; [rewrite set_col_nrows by done; lia|].
  split.
  { rewrite (names_set_col _ _ _ _ Hprices), Hnm.
    - by rewrite (names_set_col _ _ _ _ Hsku).
    - rewrite get_col_set_col_ne by apply variant_sku_ne_price.
      by eexists. }
  split.
  { intros name Hne1 Hne2.
    rewrite get_col_set_col_ne, Hg, get_col_set_col_ne by done.
    by apply Hother. }
  split.
  { rewrite get_col_set_col_ne by (symmetry; apply variant_sku_ne_price).
    rewrite Hg by apply variant_sku_ne_price. apply get_col_set_col_eq. }
  split; [apply get_col_set_col_eq|].
  by repeat split.
Qed.

(** The pipeline fails at its last step only, and there when "Body
    (HTML)" is a column that is not of object dtype. *)
Lemma process_spec now (reference : list ref_row) (upload : frame)
    (gold silver : Q) priced pre n :
  priced_upload now reference upload gold silver = Some (priced, pre, n) →
  get_col body_html pre = get_col body_html upload →
  process_precious_metals_data now reference upload gold silver
  = match get_col body_html upload with
    | Some c =>
        if dtype_object c
        then Some (sanitize_columns pre,
                   Stats (successful_updates n) (skipped_blank_sku n)
                     (skipped_no_match n) (nrows (sanitize_columns pre))
                     (length priced))
        else None
    | None =>
        Some (sanitize_columns pre,
              Stats (successful_updates n) (skipped_blank_sku n)
                (skipped_no_match n) (nrows (sanitize_columns pre))
                (length priced))
    end.
Proof.
  intros Hpre Hbody. unfold process_precious_metals_data. rewrite Hpre.
  cbn [mbind option_bind].
  destruct (clean_body_html (sanitize_columns pre)) as [out|] eqn:Hc.
  - pose proof Hc as Hid.
    apply clean_body_html_id in Hid as ->;
      [|apply sanitize_columns_sanitized].
    unfold clean_body_html in Hc.
    rewrite sanitize_columns_get_col, Hbody in Hc.
    destruct (get_col body_html upload) as [c|]; [|done].
    cbn [fmap option_fmap option_map] in Hc. unfold sanitized_column in Hc.
    destruct (dtype_object c) eqn:Hd; [done|]. by rewrite Hd in Hc.
  - unfold clean_body_html in Hc.
    rewrite sanitize_columns_get_col, Hbody in Hc.
    destruct (get_col body_html upload) as [c|]; [|done].
    cbn [fmap option_fmap option_map] in Hc. unfold sanitized_column in Hc.
    destruct (dtype_object c) eqn:Hd; [|done]. simpl in Hc. by rewrite Hd in Hc.
Qed.

End PipelineSteps.

Section PipelinePriceFacts.
Import PyStr Series Frame Sanitizer Reference Propagator Pipeline Spec.
Import Behaviour.
Context `{Runtime}.






Lemma sanitize_cell_clean_id (x : value) :
  clean_value x → sanitize_cell x = x.
Proof.
  destruct x as [|s| |]; try done. simpl. intros Hs.
  unfold sanitize_cell. simpl. f_equal.
  rewrite strip_mojibake_filter.
  induction Hs as [|c s Hc Hs IH]; [done|].
  by rewrite filter_cons, decide_True, IH.
Qed.

Lemma sanitize_columns_id (f : frame) :
  sanitized f → sanitize_columns f = f.
Proof.
  unfold sanitized, sanitize_columns.
  induction 1 as [|[n c] f Hc Hf IH]; [done|].
  rewrite fmap_cons, IH. f_equal. simpl in *.
  destruct c as [d cs]. simpl in *. destruct d; [|done].
  unfold map_cells. simpl. do 2 f_equal.
  specialize (Hc eq_refl). induction Hc as [|x cs Hx Hcs IHc]; [done|].
  by rewrite fmap_cons, IHc, sanitize_cell_clean_id.
Qed.



End PipelinePriceFacts.

Section PipelineProperties.
Import PyStr Series Frame Sanitizer Reference Propagator Pipeline Spec.
Import Behaviour.
Context `{Runtime}.


(** The table the pipeline returns has the rows of the product table and
    its columns in their order, followed by "Variant Price" and "Variant
    SKU" where the product table had none; the statistics count these
    rows, each one in exactly one of the three classes, and the rows of
    the normalized reference table, which are not more than the raw
    ones. *)
Theorem pipeline_shape now (reference : list ref_row) (upload : frame)
    (gold_price silver_price : Q) out st :
  wf upload →
  process_precious_metals_data now reference upload gold_price silver_price
  = Some (out, st) →
  wf out
  ∧ nrows out = nrows upload
  ∧ names out = output_names upload
  ∧ total_rows st = nrows upload
  ∧ stat_successful_updates st + stat_skipped_blank_sku st
    + stat_skipped_no_match st = nrows upload
  ∧ reference_rows st = length (normalize_reference now reference)
  ∧ reference_rows st ≤ length reference.
Proof.
  intros Hwf Hp.
  destruct (priced_upload_spec now reference upload gold_price silver_price
              Hwf)
    as (priced & pre & n & Hpriced & Hpre & Hwfp & Hrows & Hnames & Hother
        & _ & _ & Hb & Hs & Hn & Hlen).
  rewrite (process_spec _ _ _ _ _ _ _ _ Hpre) in Hp
    by (apply Hother; [apply body_html_ne_price|apply body_html_ne_sku]).
  assert (Some (out, st)
          = Some (sanitize_columns pre,
                  Stats (successful_updates n) (skipped_blank_sku n)
                    (skipped_no_match n) (nrows (sanitize_columns pre))
                    (length priced))) as Hout.
  { destruct (get_col body_html upload) as [c|]; [|done].
    by destruct (dtype_object c). }
  injection Hout as -> ->. cbn [total_rows stat_successful_updates
    stat_skipped_blank_sku stat_skipped_no_match reference_rows].
  assert (length priced = length (normalize_reference now reference))
    as Hlenp.
  { destruct (priced_reference_spec now reference gold_price silver_price)
      as (priced' & Hp' & Hall).
    rewrite Hpriced in Hp'. injection Hp' as <-.
    symmetry. by eapply Forall2_length. }
  split; [by apply sanitize_columns_wf|].
  split; [by rewrite sanitize_columns_nrows|].
  split; [by rewrite sanitize_columns_names|].
  split; [by rewrite sanitize_columns_nrows|].
  split.
  { rewrite Hb, Hs, Hn, classes_partition, length_fmap. done. }
  split; [done|]. rewrite Hlenp. apply normalize_reference_length.
Qed.

(** In the table the pipeline returns, a column other than "Variant
    Price" and "Variant SKU" is the column of the product table, passed
    through the sanitizer when it is of object dtype and untouched
    otherwise; "Variant SKU" holds the cleaned keys, sanitized. *)
Theorem pipeline_frame now (reference : list ref_row) (upload : frame)
    (gold_price silver_price : Q) out st :
  wf upload →
  process_precious_metals_data now reference upload gold_price silver_price
  = Some (out, st) →
  (∀ name, name ≠ variant_price → name ≠ variant_sku →
     get_col name out = sanitized_column <$> get_col name upload)
  ∧ get_col variant_sku out
    = Some (Column true (sanitize_cell <$> (clean_key <$> sku_cells upload))).
Proof.
  intros Hwf Hp.
  destruct (priced_upload_spec now reference upload gold_price silver_price
              Hwf)
    as (priced & pre & n & _ & Hpre & _ & _ & _ & Hother & Hsku & _).
  rewrite (process_spec _ _ _ _ _ _ _ _ Hpre) in Hp
    by (apply Hother; [apply body_html_ne_price|apply body_html_ne_sku]).
  assert (out = sanitize_columns pre) as ->.
  { destruct (get_col body_html upload) as [c|]; [|congruence].
    destruct (dtype_object c); congruence. }
  split.
  - intros name Hne1 Hne2.
    by rewrite sanitize_columns_get_col, Hother.
  - by rewrite sanitize_columns_get_col, Hsku.
Qed.


(** The sanitizer changes nothing on a table that it has sanitized, and
    so nothing on a table that the pipeline has returned. *)
Theorem sanitizer_idempotent :
  (∀ f, sanitize_columns (sanitize_columns f) = sanitize_columns f)
  ∧ ∀ now (reference : list ref_row) upload gold_price silver_price out st,
      process_precious_metals_data now reference upload gold_price
        silver_price = Some (out, st) →
      sanitize_columns out = out ∧ clean_body_html out = Some out.
Proof.
  split.
  - intros f. apply sanitize_columns_id, sanitize_columns_sanitized.
  - intros now reference upload gold_price silver_price out st Hp.
    unfold process_precious_metals_data in Hp.
    destruct (priced_upload now reference upload gold_price silver_price)
      as [[[reference' pre] n]|]; [|done].
    cbn [mbind option_bind] in Hp.
    destruct (clean_body_html (sanitize_columns pre)) as [out'|] eqn:Hb;
      [|done].
    cbn [mbind option_bind] in Hp. injection Hp as <- <-.
    pose proof Hb as Hid.
    apply clean_body_html_id in Hid as ->; [|apply sanitize_columns_sanitized].
    split; [|done].
    apply sanitize_columns_id, sanitize_columns_sanitized.
Qed.


End PipelineProperties.

(** ** Failures of the resolver, the clock, and prices that do not parse *)

Section EdgeFacts.
Import PyStr Series Tables Resolver Reference Spec Behaviour.
Context `{Runtime}.

Lemma sort_values_nil (t : list factor_row) : sort_values t = [] ↔ t = [].
Proof.
  split; [|by intros ->]. intros Hs.
  apply Permutation_nil_r. rewrite <- Hs. by rewrite sort_values_perm.
Qed.

Lemma find_multiplier_above_None (val : value) (t : list factor_row) :
  find_multiplier_above val t = None
  ↔ isna val = false ∧ ((∃ s, val = VStr s) ∨ t = []).
Proof.
  unfold find_multiplier_above.
  destruct val as [|s|q|b]; simpl.
  - split; [done|]. by intros [? _].
  - split; [|done]. intros _. split; [done|]. left. by exists s.
  - destruct (filter (λ r, (q < breakpoint r)%Q) t) as [|r rs] eqn:Hf.
    + destruct t as [|x t]; simpl.
      * split; [|done]. intros _. split; [done|]. by right.
      * destruct (last (x :: t)) as [r|] eqn:Hl; simpl.
        -- split; [done|]. by intros [_ [[s ?]|?]].
        -- by apply last_None in Hl.
    + split; [done|]. intros [_ [[s ?]| ->]]; done.
  - destruct (filter (λ r, ((if b then 1 else 0) < breakpoint r)%Q) t)
      as [|r rs] eqn:Hf.
    + destruct t as [|x t]; simpl.
      * split; [|done]. intros _. split; [done|]. by right.
      * destruct (last (x :: t)) as [r|] eqn:Hl; simpl.
        -- split; [done|]. by intros [_ [[s ?]|?]].
        -- by apply last_None in Hl.
    + split; [done|]. intros [_ [[s ?]| ->]]; done.
Qed.

Lemma timestamp_normalize_mono (t1 t2 : Z) :
  (t1 ≤ t2)%Z → (timestamp_normalize t1 ≤ timestamp_normalize t2)%Z.
Proof.
  intros Ht. unfold timestamp_normalize.
  assert (0 < day_ns)%Z as Hd by done.
  pose proof (Z.div_le_mono t1 t2 day_ns Hd Ht) as Hdiv.
  rewrite !Zmod_eq_full by lia. nia.
Qed.

End EdgeFacts.

Section EdgeProperties.
Import PyStr Series Tables Resolver Reference Spec Behaviour.
Context `{Runtime}.

(** [lookup_multiplier] raises exactly when some row with a Gold Market
    and a Metal that are not missing has a Gold Market that is a text,
    which cannot be compared with the breakpoints, or meets an empty
    factor table, which has no last row; on a reference table without
    such a row it gives every row a multiplier. *)
Theorem resolver_failure (reference : list ref_row)
    (gold_factor silver_factor : list factor_row) :
  lookup_multiplier reference gold_factor silver_factor = None
  ↔ Exists
      (λ row, isna (Gold_Market row) = false ∧ isna (Metal row) = false
              ∧ ((∃ s, Gold_Market row = VStr s)
                 ∨ (if is_silver row then silver_factor else gold_factor)
                   = []))
      reference.
Proof.
  unfold lookup_multiplier. cbv zeta. rewrite mapM_None.
  assert (∀ row,
            lookup_multiplier_by_metal (sort_values gold_factor)
              (sort_values silver_factor) row = None
            ↔ isna (Gold_Market row) = false ∧ isna (Metal row) = false
              ∧ ((∃ s, Gold_Market row = VStr s)
                 ∨ (if is_silver row then silver_factor else gold_factor)
                   = [])) as Hrow.
  { intros row. unfold lookup_multiplier_by_metal, is_silver. cbv zeta.
    destruct (isna (Gold_Market row)) eqn:Hg; simpl.
    { split; [done|]. by intros [? _]. }
    destruct (isna (Metal row)) eqn:Hm; simpl.
    { split; [done|]. by intros (_ & ? & _). }
    destruct (decide (Metal row = VStr (py "S/S"))) as [Hs|Hs].
    - rewrite bool_decide_eq_true_2 by done.
      rewrite find_multiplier_above_None, sort_values_nil. tauto.
    - rewrite bool_decide_eq_false_2 by done.
      rewrite find_multiplier_above_None, sort_values_nil. tauto. }
  rewrite !Exists_exists.
  split; intros (row & Hin & Hr); exists row; (split; [done|]).
  - apply Hrow.
    by destruct (lookup_multiplier_by_metal (sort_values gold_factor)
                   (sort_values silver_factor) row).
  - apply Hrow in Hr. by rewrite Hr.
Qed.

(** A reference row that passes the date filter on one day passes it on
    every later day, and a Stock ID of the normalized table stays in it,
    with a row that is not older. *)
Theorem effective_rows_stay now1 now2 (reference : list ref_row) :
  (now1 ≤ now2)%Z →
  (∀ r, r ∈ effective_reference now1 reference →
        r ∈ effective_reference now2 reference)
  ∧ ∀ r1, r1 ∈ normalize_reference now1 reference →
      ∃ r2, r2 ∈ normalize_reference now2 reference
            ∧ Stock_ID r2 = Stock_ID r1.
Proof.
  intros Hnow. apply timestamp_normalize_mono in Hnow.
  assert (∀ r, r ∈ effective_reference now1 reference →
               r ∈ effective_reference now2 reference) as Hsub.
  { intros r. rewrite !elem_of_effective_reference.
    intros [Hr (d & Hd & Hle)]. split; [done|]. exists d. split; [done|lia]. }
  split; [exact Hsub|].
  intros r1 Hr1. rewrite normalize_reference_eq in Hr1.
  apply list_elem_of_fmap in Hr1 as (k & -> & Hk).
  apply drop_duplicates_from_sublist in Hk.
  apply list_elem_of_fmap in Hk as (e & -> & He).
  apply Hsub in He.
  assert (clean_keys e ∈ clean_keys <$> effective_reference now2 reference)
    as Hin by (apply list_elem_of_fmap; by exists e).
  apply (drop_duplicates_from_keys []) in Hin
    as [Hin|(k2 & Hk2 & Heq)]; [by apply elem_of_nil in Hin|].
  exists (clean_numbers k2). split.
  - rewrite normalize_reference_eq. apply list_elem_of_fmap. by exists k2.
  - simpl. by rewrite Heq.
Qed.

(** A reference row whose Price Per Unit is missing or does not parse as
    a number is priced 0, whatever its multiplier: its New Price is the
    number 0 rounded, which is not missing, so that it enters the price
    mapping like any price. *)
Theorem unparsed_price_is_zero (r : ref_row) (m : value) :
  to_numeric (Price_Per_Unit r) = VNa →
  let row := normalize_row r in
  Price_Per_Unit row = VNum 0
  ∧ New_Price (price_row (set_Multiplier m row)) = VNum (round2 0)
  ∧ notna (New_Price (price_row (set_Multiplier m row))) = true.
Proof.
  intros Hna row.
  assert (Price_Per_Unit row = VNum 0) as Hppu.
  { unfold row. simpl. unfold clean_price_per_unit. by rewrite Hna. }
  destruct (price_row_new_price row m 0 Hppu) as [_ Hnew].
  split; [done|]. rewrite Hnew. split; [|done].
  assert (round2 (0 * multiplier_or_one m) = round2 0) as ->; [|done].
  apply round2_comp. ring.
Qed.

End EdgeProperties.

(** ** Running the propagator on its own result *)

Section RerunFacts.
Import PyStr Series Frame Propagator Spec Behaviour.
Context `{Runtime}.

Lemma propagated_idemp (lk : gmap value value) (k x : value) :
  propagated lk k (propagated lk k x) = propagated lk k x.
Proof.
  unfold propagated. destruct (is_blank k); [done|].
  destruct (lk !! k) as [p|]; [|done]. by destruct (notna p).
Qed.

(** The loop changes nothing in a table whose prices are already the
    propagated ones. *)
Lemma propagate_fixed lk skus : ∀ idx (f : frame) n c,
  get_col variant_price f = Some c →
  Forall2 (λ k x, propagated lk k x = x) skus (drop idx (cells c)) →
  (propagate lk skus idx f n).1 = f.
Proof.
  induction skus as [|k skus IH]; intros idx f n c Hc Hall; [done|].
  destruct (drop idx (cells c)) as [|x rest] eqn:Hdrop;
    [by apply Forall2_cons_nil_inv in Hall|].
  apply Forall2_cons in Hall as [Hk Hall].
  assert (cells c !! idx = Some x) as Hx.
  { rewrite <- (Nat.add_0_r idx), <- lookup_drop. by rewrite Hdrop. }
  assert (drop (S idx) (cells c) = rest) as Hrest.
  { rewrite (drop_S _ x) in Hdrop by done. by injection Hdrop. }
  rewrite <- Hrest in Hall.
  cbn [propagate]. fold (is_blank k). unfold propagated in Hk.
  destruct (is_blank k); [by apply (IH _ _ _ c)|].
  destruct (lk !! k) as [p|]; [|by apply (IH _ _ _ c)].
  destruct (notna p); [|by apply (IH _ _ _ c)].
  subst p.
  assert (loc_set idx variant_price x f = f) as ->.
  { unfold loc_set. rewrite Hc. apply set_col_get_col_id. rewrite Hc.
    f_equal. destruct c as [d cs]. simpl in *. f_equal.
    symmetry. by apply list_insert_id. }
  by apply (IH _ _ _ c).
Qed.

End RerunFacts.

Section RerunProperties.
Import PyStr Series Frame Propagator Spec Behaviour.
Context `{Runtime}.

(** Running the propagator again on the table it has returned, with the
    same reference table, returns that table and the same three
    counters. *)
Theorem propagator_idempotent upload reference sku price result n :
  wf upload →
  get_col variant_sku upload = Some sku →
  get_col variant_price upload = Some price →
  update_variant_price_fixed upload reference = Some (result, n) →
  update_variant_price_fixed result reference = Some (result, n).
Proof.
  intros Hwf Hsku Hprice Hu.
  destruct (update_variant_price_fixed_spec upload reference sku Hwf Hsku)
    as (result' & n' & Hu' & Hp & Hwfs & Hns).
  rewrite Hu in Hu'. injection Hu' as <- <-.
  pose proof Hp as Hprices.
  apply (propagate_prices _ _ _ _ _ _ _ price) in Hprices.
  2:{ rewrite get_col_set_col_ne; [done|]. apply variant_sku_ne_price. }
  2:{ rewrite length_fmap. simpl.
      rewrite (wf_get_col variant_price price upload) by done.
      by rewrite (wf_get_col variant_sku sku upload). }
  rewrite take_0, drop_0 in Hprices. cbn [app] in Hprices.
  apply propagate_spec in Hp
    as (Hwfr & Hr & Hg & _ & Hb & Hs & Hn);
    [|apply build_price_lookup_notna|done].
  simpl in Hb, Hs, Hn.
  assert (get_col variant_sku result
          = Some (Column true (clean_key <$> cells sku))) as Hsku'.
  { rewrite Hg by apply variant_sku_ne_price. apply get_col_set_col_eq. }
  assert (clean_key <$> (clean_key <$> cells sku) = clean_key <$> cells sku)
    as Hkeys.
  { rewrite <- list_fmap_compose. apply list_fmap_ext.
    intros _ x _. apply clean_key_idemp. }
  destruct (update_variant_price_fixed_spec result reference _ Hwfr Hsku')
    as (result2 & n2 & Hu2 & Hp2 & _ & _).
  cbn [cells] in Hp2. rewrite Hkeys in Hp2.
  rewrite (set_col_get_col_id _ _ _ Hsku') in Hp2.
  rewrite Hu2. do 2 f_equal.
  assert (result2 = result) as ->.
  { change result2 with (result2, n2).1. rewrite <- Hp2.
    apply (propagate_fixed _ _ _ _ _ _ Hprices).
    cbn [cells]. rewrite drop_0.
    assert (length (clean_key <$> cells sku) = length (cells price)) as Hlen.
    { rewrite length_fmap.
      rewrite (wf_get_col variant_price price upload) by done.
      by rewrite (wf_get_col variant_sku sku upload). }
    revert Hlen. generalize (clean_key <$> cells sku) (cells price).
    intros ks. induction ks as [|k ks IH]; intros [|x xs] Hlen; try done;
      try (by constructor).
    cbn [zip_with]. constructor; [apply propagated_idemp|].
    apply IH. by injection Hlen. }
  f_equal.
  apply propagate_spec in Hp2
    as (_ & _ & _ & _ & Hb2 & Hs2 & Hn2);
    [|apply build_price_lookup_notna|done].
  simpl in Hb2, Hs2, Hn2.
  destruct n as [a b c], n2 as [a2 b2 c2]. simpl in *. congruence.
Qed.

End RerunProperties.

Lemma propagator_idempotent_witness :
  ∃ result n,
    Propagator.update_variant_price_fixed Examples.upload Examples.reference
    = Some (result, n)
    ∧ Propagator.update_variant_price_fixed result Examples.reference
      = Some (result, n).
Proof.
  destruct (Propagator.update_variant_price_fixed Examples.upload
              Examples.reference) as [[result n]|] eqn:Hu;
    [|by vm_compute in Hu].
  exists result, n. split; [reflexivity|].
  apply (propagator_idempotent Examples.upload Examples.reference
           Examples.sku_column
           (Column false [VNum 1; VNum 2; VNum 3.456])).
  - repeat constructor.
  - reflexivity.
  - reflexivity.
  - exact Hu.
Defined.

(** ** The properties on the examples *)

Lemma max_date_latest_witness :
  Some (Examples.midnight 20)
    ∈ Behaviour.timestamps
        (Sample.raw_row (VStr (PyStr.py "Z Z Z")) (VStr (PyStr.py "14K"))
           (VStr (PyStr.py "7")) (VStr (PyStr.py "1,000")) (Examples.date 3)
           (Examples.date 20) VNa).
Proof.
  destruct (max_date_latest
              (Sample.raw_row (VStr (PyStr.py "Z Z Z")) (VStr (PyStr.py "14K"))
                 (VStr (PyStr.py "7")) (VStr (PyStr.py "1,000"))
                 (Examples.date 3) (Examples.date 20) VNa)) as [_ Hmax].
  destruct (Hmax (Examples.midnight 20)) as [Hin _]; [reflexivity|].
  exact Hin.
Defined.


Lemma unparsed_price_is_zero_witness :
  New_Price
    (Reference.price_row
       (set_Multiplier (VNum 2) (Spec.normalize_row Cases.unpriced_row)))
  = VNum (Series.round2 0).
Proof.
  destruct (unparsed_price_is_zero Cases.unpriced_row (VNum 2))
    as (_ & Hnew & _); [reflexivity|].
  exact Hnew.
Defined.

Lemma effective_rows_stay_witness :
  Reference.with_max_date
    (Sample.raw_row (VStr (PyStr.py "ABC1")) (VStr (PyStr.py "SS")) (VNum 10)
       (VStr (PyStr.py "25")) (Examples.date 3) VNa VNa)
  ∈ Reference.effective_reference (Examples.midnight 30)
      Examples.raw_reference.
Proof.
  destruct (effective_rows_stay (Examples.midnight 10) (Examples.midnight 30)
              Examples.raw_reference) as [Hsub _]; [by vm_compute|].
  apply Hsub. vm_compute. apply list_elem_of_here.
Defined.


Lemma pipeline_shape_witness :
  ∃ out st,
    Pipeline.process_precious_metals_data (Examples.midnight 10)
      Examples.raw_reference Examples.upload 2000 25 = Some (out, st)
    ∧ Frame.names out = Behaviour.output_names Examples.upload
    ∧ total_rows st = Frame.nrows Examples.upload.
Proof.
  destruct (Pipeline.process_precious_metals_data (Examples.midnight 10)
              Examples.raw_reference Examples.upload 2000 25)
    as [[out st]|] eqn:Hp; [|by vm_compute in Hp].
  destruct (pipeline_shape (Examples.midnight 10) Examples.raw_reference
              Examples.upload 2000 25 out st)
    as (_ & _ & Hnames & Hrows & _).
  - repeat constructor.
  - exact Hp.
  - exists out, st. split; [reflexivity|]. exact (conj Hnames Hrows).
Defined.

Lemma pipeline_frame_witness :
  ∃ out st,
    Pipeline.process_precious_metals_data (Examples.midnight 10)
      Examples.raw_reference Examples.upload 2000 25 = Some (out, st)
    ∧ Frame.get_col Examples.handle out
      = Behaviour.sanitized_column
          <$> Frame.get_col Examples.handle Examples.upload.
Proof.
  destruct (Pipeline.process_precious_metals_data (Examples.midnight 10)
              Examples.raw_reference Examples.upload 2000 25)
    as [[out st]|] eqn:Hp; [|by vm_compute in Hp].
  destruct (pipeline_frame (Examples.midnight 10) Examples.raw_reference
              Examples.upload 2000 25 out st) as [Hother _].
  - repeat constructor.
  - exact Hp.
  - exists out, st. split; [reflexivity|]. apply Hother; by vm_compute.
Defined.


Lemma sanitizer_idempotent_witness :
  ∃ out st,
    Pipeline.process_precious_metals_data (Examples.midnight 10)
      Examples.raw_reference Examples.upload 2000 25 = Some (out, st)
    ∧ Pipeline.sanitize_columns out = out.
Proof.
  destruct (Pipeline.process_precious_metals_data (Examples.midnight 10)
              Examples.raw_reference Examples.upload 2000 25)
    as [[out st]|] eqn:Hp; [|by vm_compute in Hp].
  exists out, st. split; [reflexivity|].
  exact (proj1 (proj2 sanitizer_idempotent _ _ _ _ _ _ _ Hp)).
Defined.


(** The export without SKUs comes back with its prices rounded and a
    column of empty SKUs at its end. *)
Example pipeline_on_no_sku :
  (λ r, (Frame.names r.1, Frame.get_col Propagator.variant_price r.1))
    <$> Pipeline.process_precious_metals_data (Examples.midnight 10)
          Examples.raw_reference Cases.no_sku 2000 25
  = Some ([Examples.handle; Propagator.variant_price; Propagator.variant_sku],
          Some (Column false [VNum 1.00; VNum 2.34])).
Proof. by vm_compute. Qed.
